(** * BlueBubbles server: the chat router of the HTTP API (v1)

    A shallow embedding of [ChatRouter]
    (packages/server/src/server/services/httpService/api/v1/routers/chatRouter.ts)
    and the properties of its handlers.

    The handlers are [async] functions that talk to the singleton server
    ([Server().iMessageRepo], [Server().privateApiHelper],
    [Server().emitMessage]) and to the static class [ChatInterface].  They are
    embedded in a state-and-exception monad over an abstract [World]; every
    call to a collaborator is also recorded, in order, in a log of calls. *)

From Stdlib Require Import ZArith QArith.QArith_base Ascii String.
From stdpp Require Import base option list strings gmap fin_maps.
From stdpp Require Import pretty sorting.

Local Open Scope string_scope.
#[local] Set Warnings "-register-all".

(** ** JavaScript values of a request body *)

Inductive JsVal : Type :=
| JUndefined
| JNull
| JBool (b : bool)
| JNum (q : Q)
| JStr (s : string)
| JArr (items : list JsVal)
| JObj (fields : list (string * JsVal)).

(** JavaScript truthiness, as tested by [if (v)] and [v ? a : b]. *)
Definition truthy (v : JsVal) : bool :=
  match v with
  | JUndefined | JNull => false
  | JBool b => b
  | JNum q => negb (Qnum q =? 0)%Z
  | JStr s => match s with EmptyString => false | String _ _ => true end
  | JArr _ | JObj _ => true
  end.

(** [a ?? b] *)
Definition nullish (v d : JsVal) : JsVal :=
  match v with
  | JUndefined | JNull => d
  | _ => v
  end.

(** The own property [key] of an object given by its fields, or
    [undefined]. *)
Fixpoint assoc (key : string) (fields : list (string * JsVal)) : JsVal :=
  match fields with
  | [] => JUndefined
  | (k, v) :: rest => if String.eqb k key then v else assoc key rest
  end.

(** [body?.key], for a request body that is an object or is missing. *)
Definition prop (o : option (list (string * JsVal))) (key : string) : JsVal :=
  match o with
  | Some fields => assoc key fields
  | None => JUndefined
  end.

(** [.filter((e: any) => typeof e === "string")] *)
Definition only_strings (l : list JsVal) : list string :=
  omap (λ e, match e with JStr s => Some s | _ => None end) l.

(** [Array.prototype.includes] on an array of strings. *)
Definition includes (l : list string) (s : string) : bool :=
  bool_decide (s ∈ l).

(** [Array.prototype.join] on an array of strings. *)
Fixpoint join (sep : string) (l : list string) : string :=
  match l with
  | [] => ""
  | [x] => x
  | x :: rest => x ++ sep ++ join sep rest
  end.

(** [String.prototype.split(",")]: the pieces between the commas; the empty
    string has the single piece [""]. *)
Fixpoint split_comma_aux (cur : string) (s : string) : list string :=
  match s with
  | EmptyString => [cur]
  | String c rest =>
      if Ascii.eqb c ","%char then cur :: split_comma_aux "" rest
      else split_comma_aux (cur ++ String c "") rest
  end.

Definition split_comma (s : string) : list string := split_comma_aux "" s.

(** ** Entities and API responses *)

(** Modelled from the spec: the entity class [Handle] is declared outside
    the router; a participant is its address. *)
Record Handle : Type := { address : string }.

(** Modelled from the spec: the entity class [Message] is declared outside
    the router; a message has an identifier and a timestamp. *)
Record Message : Type := {
  m_guid : string;
  m_text : string;
  m_dateCreated : Z
}.

(** Modelled from the spec: the entity class [Chat] is declared outside the
    router; a chat has its guid, an optional display name, the name of its
    service, its participants and its messages.  The router reads
    [serviceName], [participants] and [guid]. *)
Record Chat : Type := {
  guid : string;
  displayName : option string;
  serviceName : string;
  participants : list Handle;
  chat_messages : list Message
}.

#[global] Instance Chat_inhabited : Inhabited Chat :=
  populate {| guid := ""; displayName := None; serviceName := "";
              participants := []; chat_messages := [] |}.

(** Modelled from the spec: the type of the responses of
    [getMessageResponse] is declared outside the router; it carries the
    message and the optional [tempGuid], which [create] writes. *)
Record MessageResponse : Type := {
  r_msgGuid : string;
  r_text : string;
  r_dateCreated : Z;
  tempGuid : JsVal
}.

(** Modelled from the spec: the type of the responses of [getChatResponse]
    is declared outside the router; it carries the chat, the optional
    [lastMessage], which [find] writes, and the optional [messages], which
    [create] reads. *)
Record ChatResponse : Type := {
  r_guid : string;
  r_displayName : option string;
  r_participants : list Handle;
  lastMessage : option MessageResponse;
  messages : option (list MessageResponse)
}.

(** [res.lastMessage = m] *)
Definition set_lastMessage (m : MessageResponse) (res : ChatResponse) : ChatResponse :=
  {| r_guid := r_guid res; r_displayName := r_displayName res;
     r_participants := r_participants res;
     lastMessage := Some m; messages := messages res |}.

(** [i.tempGuid = t] *)
Definition set_tempGuid (t : JsVal) (i : MessageResponse) : MessageResponse :=
  {| r_msgGuid := r_msgGuid i; r_text := r_text i;
     r_dateCreated := r_dateCreated i; tempGuid := t |}.

(** The response [res] after the writes to the elements of [res.messages]. *)
Definition set_messages (ms : option (list MessageResponse)) (res : ChatResponse) : ChatResponse :=
  {| r_guid := r_guid res; r_displayName := r_displayName res;
     r_participants := r_participants res;
     lastMessage := lastMessage res; messages := ms |}.

(** The [metadata] of the answer of [query]. *)
Record Metadata : Type := {
  md_total : nat;
  md_offset : JsVal;
  md_limit : JsVal
}.

(** The body of [new Success(ctx, { data, message, metadata })]. *)
Record Success (D : Type) : Type := {
  s_message : option string;
  s_data : option D;
  s_metadata : option Metadata
}.
Arguments s_message {D} _.
Arguments s_data {D} _.
Arguments s_metadata {D} _.
Arguments Build_Success {D} _ _ _.

(** ** The helpers [isEmpty] / [isNotEmpty] *)

(** Modelled from the spec: [isEmpty] and [isNotEmpty] come from
    @server/helpers/utils, which is not part of the router.  They apply to
    arrays and to values of the request body alike, hence the class. *)
Class Emptiness (A : Type) : Type := isEmpty : A → bool.

Definition isNotEmpty {A} `{Emptiness A} (a : A) : bool := negb (isEmpty a).

(** Modelled from the spec: on an array, [isEmpty] tells that it has no
    element (no chat returned: "if absent, fails with NotFound"; no field
    updated; no error collected). *)
#[global] Instance list_emptiness {A} : Emptiness (list A) :=
  λ l, match l with [] => true | _ :: _ => false end.

(** ** Outcomes, calls and the handler monad *)

Inductive Outcome (E A : Type) : Type :=
| Returned (a : A)
| Threw (e : E).
Arguments Returned {E A} _.
Arguments Threw {E A} _.

(** Parameters of [iMessageRepo.getChats]. *)
Record ChatParams : Type := {
  chatGuid : string;
  withParticipants : bool
}.

(** Parameters of [ChatInterface.get]. *)
Record GetOpts : Type := {
  g_guid : JsVal;
  g_withParticipants : bool;
  g_withLastMessage : bool;
  g_withArchived : bool;
  g_offset : JsVal;
  g_limit : JsVal;
  g_sort : JsVal
}.

(** Parameters of [ChatInterface.create]. *)
Record CreateOpts : Type := {
  c_addresses : JsVal;
  c_message : JsVal;
  c_method : JsVal;
  c_service : JsVal;
  c_tempGuid : JsVal
}.

Inductive ToggleAction : Type := add | remove.

(** A call made by a handler to one of its collaborators. *)
Inductive Call : Type :=
| GetChats (params : option ChatParams)
| GetChatLastMessage (g : string)
| GetChatCount
| MarkChatRead (g : string)
| EmitMessage (name : string) (payload : JsVal)
| InterfaceGet (opts : GetOpts)
| InterfaceSetDisplayName (chat : Chat) (name : JsVal)
| InterfaceCreate (opts : CreateOpts)
| InterfaceToggleParticipant (chat : Chat) (addr : JsVal) (action : ToggleAction).

(** The calls through which the router can reach the action executor: the
    mutations of [ChatInterface] and the private API helper.  The reads of
    the message store, [ChatInterface.get] and the event emitter are not
    among them. *)
Definition mutating_call (c : Call) : bool :=
  match c with
  | MarkChatRead _ | InterfaceSetDisplayName _ _ | InterfaceCreate _
  | InterfaceToggleParticipant _ _ _ => true
  | GetChats _ | GetChatLastMessage _ | GetChatCount | EmitMessage _ _
  | InterfaceGet _ => false
  end.

(** What a handler throws: the error responses of the router, a [TypeError]
    of the runtime (a method called on a value that does not have it), or an
    exception of a collaborator that the handler lets through. *)
Inductive Thrown (Exn : Type) : Type :=
| NotFound (message : option string) (error : string)
| IMessageError (message : option string) (error : string)
| TypeError
| Raised (ex : Exn).
Arguments NotFound {Exn} _ _.
Arguments IMessageError {Exn} _ _.
Arguments TypeError {Exn}.
Arguments Raised {Exn} _.

(** A collaborator: it may change the world, and returns or throws. *)
Definition Ext (World Exn R : Type) : Type := World → Outcome Exn R * World.

Record St (World : Type) : Type := { world : World; calls : list Call }.
Arguments world {World} _.
Arguments calls {World} _.
Arguments Build_St {World} _ _.

Definition M (World Exn A : Type) : Type :=
  St World → Outcome (Thrown Exn) A * St World.

Section Monad.
Context {World Exn : Type}.

Definition ret {A} (a : A) : M World Exn A := λ st, (Returned a, st).

Definition throw {A} (t : Thrown Exn) : M World Exn A := λ st, (Threw t, st).

Definition bind {A B} (m : M World Exn A) (k : A → M World Exn B) : M World Exn B :=
  λ st, match m st with
        | (Returned a, st') => k a st'
        | (Threw t, st') => (Threw t, st')
        end.

(** [try { r = await f } catch (ex) { ... }]: the call is logged and made;
    its outcome is handed to the handler, nothing is thrown. *)
Definition attempt {R} (c : Call) (f : Ext World Exn R) : M World Exn (Outcome Exn R) :=
  λ st, let (r, w) := f (world st) in
        (Returned r, {| world := w; calls := (calls st ++ [c])%list |}).

(** [await f]: an exception of the collaborator propagates. *)
Definition call {R} (c : Call) (f : Ext World Exn R) : M World Exn R :=
  bind (attempt c f)
       (λ r, match r with
             | Returned a => ret a
             | Threw ex => throw (Raised ex)
             end).

End Monad.

Notation "x ←' m ; k" := (bind m (λ x, k))
  (at level 100, m at next level, right associativity,
   format "x  ←'  m ;  '/' k").

(** The collaborators of the router: the singleton [Server()] and the static
    class [ChatInterface]. *)
Record Services (World Exn : Type) : Type := {
  iMessageRepo_getChats : option ChatParams → Ext World Exn (list Chat);
  iMessageRepo_getChatLastMessage : string → Ext World Exn Message;
  iMessageRepo_getChatCount : Ext World Exn nat;
  privateApiHelper_markChatRead : string → Ext World Exn JsVal;
  emitMessage : string → JsVal → Ext World Exn unit;
  ChatInterface_get : GetOpts → Ext World Exn (list ChatResponse);
  ChatInterface_setDisplayName : Chat → JsVal → Ext World Exn Chat;
  ChatInterface_create : CreateOpts → Ext World Exn (option Chat);
  ChatInterface_toggleParticipant : Chat → JsVal → ToggleAction → Ext World Exn Chat
}.
Arguments iMessageRepo_getChats {World Exn} _.
Arguments iMessageRepo_getChatLastMessage {World Exn} _.
Arguments iMessageRepo_getChatCount {World Exn} _.
Arguments privateApiHelper_markChatRead {World Exn} _.
Arguments emitMessage {World Exn} _.
Arguments ChatInterface_get {World Exn} _.
Arguments ChatInterface_setDisplayName {World Exn} _.
Arguments ChatInterface_create {World Exn} _.
Arguments ChatInterface_toggleParticipant {World Exn} _.

(** The functions of other modules that the router applies to values:
    the response builders of the entities, [safeTrim] of the helpers, the
    built-ins [String.prototype.toLowerCase] and [Number.parseInt(_, 10)],
    the text that [errors.join] shows for a caught [ex?.message ?? ex], and
    [isEmpty] on a value of the request body. *)
Record Helpers (Exn : Type) : Type := {
  getChatResponse : Chat → ChatResponse;
  getMessageResponse : Message → MessageResponse;
  safeTrim : string → string;
  toLowerCase : string → string;
  parseInt10 : JsVal → JsVal;
  exMessage : Exn → string;
  value_emptiness : Emptiness JsVal
}.
Arguments getChatResponse {Exn} _.
Arguments getMessageResponse {Exn} _.
Arguments safeTrim {Exn} _.
Arguments toLowerCase {Exn} _.
Arguments parseInt10 {Exn} _.
Arguments exMessage {Exn} _.
Arguments value_emptiness {Exn} _.

(** The part of the koa context that the handlers read.  The body is the
    parsed JSON object of the request, given by its fields, or is missing. *)
Record RouterContext : Type := {
  params_guid : string;                      (* ctx.params.guid *)
  query_with : JsVal;                        (* ctx.request.query.with *)
  body : option (list (string * JsVal))      (* ctx.request.body *)
}.

(** ** The router *)

Module ChatRouter.
Section Router.
Context {World Exn : Type}.
Variable Server : Services World Exn.
Variable lib : Helpers Exn.

(** [isEmpty] on a value of the request body. *)
#[local] Instance body_emptiness : Emptiness JsVal := value_emptiness lib.

(** [Object.keys(serviceCounts)] *)
Definition Object_keys (serviceCounts : gmap string nat) : list string :=
  (map_to_list serviceCounts).*1.

(** [serviceCounts[key] = value] on the plain object [serviceCounts]: the
    own property [key] is written.  The key [__proto__] is the exception: it
    is the accessor of [Object.prototype], whose setter ignores a value that
    is not an object, so the assignment creates no property. *)
Definition assign (key : string) (value : nat) (serviceCounts : gmap string nat)
  : gmap string nat :=
  if String.eqb key "__proto__" then serviceCounts
  else <[key := value]> serviceCounts.

(** One turn of the loop of [count]. *)
Definition count_chat (serviceCounts : gmap string nat) (chat : Chat) : gmap string nat :=
  let serviceCounts :=
    if negb (includes (Object_keys serviceCounts) (serviceName chat))
    then assign (serviceName chat) 0 serviceCounts
    else serviceCounts in
  (* serviceCounts[chat.serviceName] += 1: the own count is read and written
     back increased.  For [__proto__] there is no own count: what is read is
     the prototype object, and the assignment of the sum is ignored. *)
  match serviceCounts !! serviceName chat with
  | Some n => assign (serviceName chat) (n + 1) serviceCounts
  | None => serviceCounts
  end.

Record CountData : Type := { total : nat; breakdown : gmap string nat }.

Definition count (ctx : RouterContext) : M World Exn (Success CountData) :=
  chats ←' call (GetChats None) (iMessageRepo_getChats Server None);
  let serviceCounts := foldl count_chat ∅ chats in
  let data := {| total := length chats; breakdown := serviceCounts |} in
  ret (Build_Success None (Some data) None).

(** [((ctx.request.query.with ?? "") as string).toLowerCase().split(",")
      .map(e => safeTrim(e))] *)
Definition find_withQuery (ctx : RouterContext) : option (list string) :=
  match nullish (query_with ctx) (JStr "") with
  | JStr s => Some (map (safeTrim lib) (split_comma (toLowerCase lib s)))
  | _ => None
  end.

Definition find (ctx : RouterContext) : M World Exn (Success ChatResponse) :=
  match find_withQuery ctx with
  | None => throw TypeError
  | Some withQuery =>
    let withParticipants := includes withQuery "participants" in
    let withLastMessage := includes withQuery "lastmessage" in
    chats ←' call (GetChats (Some {| chatGuid := params_guid ctx;
                                     withParticipants := withParticipants |}))
                  (iMessageRepo_getChats Server
                     (Some {| chatGuid := params_guid ctx;
                              withParticipants := withParticipants |}));
    if isEmpty chats then throw (NotFound None "Chat does not exist!")
    else
      let res := getChatResponse lib (chats !!! 0%nat) in
      res ←' (if withLastMessage
              then m ←' call (GetChatLastMessage (params_guid ctx))
                             (iMessageRepo_getChatLastMessage Server (params_guid ctx));
                   ret (set_lastMessage (getMessageResponse lib m) res)
              else ret res);
      ret (Build_Success None (Some res) None)
  end.

(** [(body?.with ?? []).filter(...).map(e => safeTrim(e.toLowerCase()))] *)
Definition query_withQuery (ctx : RouterContext) : option (list string) :=
  match nullish (prop (body ctx) "with") (JArr []) with
  | JArr items => Some (map (λ e, safeTrim lib (toLowerCase lib e)) (only_strings items))
  | _ => None
  end.

Definition query (ctx : RouterContext) : M World Exn (Success (list ChatResponse)) :=
  match query_withQuery ctx with
  | None => throw TypeError
  | Some withQuery =>
    let withParticipants := includes withQuery "participants" in
    let withLastMessage := includes withQuery "lastmessage" in
    let withArchived := includes withQuery "archived" in
    let guid := prop (body ctx) "guid" in
    match body ctx with
    | None => throw TypeError   (* const { sort, offset, limit } = body *)
    | Some _ =>
      let sort := prop (body ctx) "sort" in
      let offset := prop (body ctx) "offset" in
      let limit := prop (body ctx) "limit" in
      let opts :=
        {| g_guid := guid;
           g_withParticipants := withParticipants;
           g_withLastMessage := withLastMessage;
           g_withArchived := withArchived;
           g_offset := if truthy offset then parseInt10 lib offset else JNum (0 # 1);
           g_limit := if truthy limit then parseInt10 lib limit else JNum (1000 # 1);
           g_sort := sort |} in
      results ←' call (InterfaceGet opts) (ChatInterface_get Server opts);
      total ←' call GetChatCount (iMessageRepo_getChatCount Server);
      let metadata := {| md_total := total; md_offset := offset; md_limit := limit |} in
      ret (Build_Success None (Some results) (Some metadata))
    end
  end.

Definition update (ctx : RouterContext) : M World Exn (Success ChatResponse) :=
  let guid := params_guid ctx in
  let displayName := prop (body ctx) "displayName" in
  chats ←' call (GetChats (Some {| chatGuid := guid; withParticipants := true |}))
                (iMessageRepo_getChats Server
                   (Some {| chatGuid := guid; withParticipants := true |}));
  if isEmpty chats then throw (NotFound None "Chat does not exist!")
  else
    let chat := chats !!! 0%nat in
    let updated : list string := [] in
    let errors : list string := [] in
    st ←' (if truthy displayName then
             if (length (participants chat) <=? 1)%nat then
               throw (IMessageError (Some "Cannot rename a non-group chat!")
                                    "Chat is not a group")
             else
               r ←' attempt (InterfaceSetDisplayName chat displayName)
                            (ChatInterface_setDisplayName Server chat displayName);
               match r with
               | Returned chat' => ret (chat', (updated ++ ["displayName"])%list, errors)
               | Threw ex => ret (chat, updated, (errors ++ [exMessage lib ex])%list)
               end
           else ret (chat, updated, errors));
    let '(chat, updated, errors) := st in
    if isNotEmpty errors then
      throw (IMessageError (Some "Chat update executed with errors!")
                           (join ", " errors))
    else
      let data := getChatResponse lib chat in
      if isEmpty updated then
        ret (Build_Success
               (Some "Chat not updated! No update information provided!")
               (Some data) None)
      else
        ret (Build_Success
               (Some ("Successfully updated the following fields: "
                        ++ join ", " updated))
               (Some data) None).

(** [for (const i of data.messages ?? []) i.tempGuid = tempGuid] *)
Definition inject_tempGuid (tempGuid : JsVal) (data : ChatResponse) : ChatResponse :=
  match messages data with
  | Some ms => set_messages (Some (map (set_tempGuid tempGuid) ms)) data
  | None => data
  end.

Definition create (ctx : RouterContext) : M World Exn (Success ChatResponse) :=
  let addresses := prop (body ctx) "addresses" in
  let message := prop (body ctx) "message" in
  let method := prop (body ctx) "method" in
  let service := prop (body ctx) "service" in
  let tempGuid := prop (body ctx) "tempGuid" in
  let opts := {| c_addresses := addresses; c_message := message;
                 c_method := method; c_service := service;
                 c_tempGuid := tempGuid |} in
  chat ←' call (InterfaceCreate opts) (ChatInterface_create Server opts);
  match chat with
  | None => throw (IMessageError None "Failed to create chat!")
  | Some chat =>
    let data := getChatResponse lib chat in
    let data := if isNotEmpty tempGuid
                then inject_tempGuid tempGuid data
                else data in
    ret (Build_Success (Some "Successfully created chat!") (Some data) None)
  end.

Definition markRead (ctx : RouterContext) : M World Exn (Success unit) :=
  let guid := params_guid ctx in
  _ ←' call (MarkChatRead guid) (privateApiHelper_markChatRead Server guid);
  _ ←' call (EmitMessage "chat-read-status-changed"
                         (JObj [("chatGuid", JStr guid); ("read", JBool true)]))
            (emitMessage Server "chat-read-status-changed"
                         (JObj [("chatGuid", JStr guid); ("read", JBool true)]));
  ret (Build_Success (Some "Successfully marked chat as read!") None None).

Definition toggleParticipant (ctx : RouterContext) (action : ToggleAction)
  : M World Exn (Success ChatResponse) :=
  let guid := params_guid ctx in
  let address := prop (body ctx) "address" in
  chats ←' call (GetChats (Some {| chatGuid := guid; withParticipants := true |}))
                (iMessageRepo_getChats Server
                   (Some {| chatGuid := guid; withParticipants := true |}));
  if isEmpty chats then throw (NotFound None "Chat does not exist!")
  else
    let chat := chats !!! 0%nat in
    chat ←' call (InterfaceToggleParticipant chat address action)
                 (ChatInterface_toggleParticipant Server chat address action);
    ret (Build_Success None (Some (getChatResponse lib chat)) None).

Definition addParticipant (ctx : RouterContext) : M World Exn (Success ChatResponse) :=
  toggleParticipant ctx add.

Definition removeParticipant (ctx : RouterContext) : M World Exn (Success ChatResponse) :=
  toggleParticipant ctx remove.

End Router.
End ChatRouter.

(** ** The roster manager behind [ChatInterface.toggleParticipant] *)

Module RosterManager.

(** Modelled from the spec: the error kinds of the error handling design
    (section 7); [ChatInterface] is not part of the router and its errors
    are not declared there. *)
Inductive ErrorKind : Type :=
| NotFoundKind
| ValidationError
| InvalidOperation
| ActionRejected
| ActionTimeout
| AggregateFieldError.

(** Modelled from the spec: a roster change as it is submitted to the
    action executor, which only accepts or rejects it. *)
Record RosterChange : Type := {
  rc_chatGuid : string;
  rc_address : JsVal;
  rc_op : ToggleAction
}.

(** The world of the roster manager: the mirror, and the actions submitted
    to the action executor so far. *)
Record ExecWorld (Mirror : Type) : Type := {
  mirror : Mirror;
  submitted : list RosterChange
}.
Arguments mirror {Mirror} _.
Arguments submitted {Mirror} _.
Arguments Build_ExecWorld {Mirror} _ _.

Section Manager.
Context {Mirror : Type}.
(** The collaborators over the mirror; its [getChats] is the message store. *)
Variable base : Services Mirror ErrorKind.
(** The action executor: accepts ([true]) or rejects, and drives the client. *)
Variable executor_submit : RosterChange → Mirror → bool * Mirror.

(** A collaborator over the mirror, run in the world of the manager. *)
Definition lift {R} (f : Ext Mirror ErrorKind R) : Ext (ExecWorld Mirror) ErrorKind R :=
  λ w, let (r, m) := f (mirror w) in
       (r, {| mirror := m; submitted := submitted w |}).

(** Modelled from the spec: [ChatInterface.toggleParticipant], the
    ParticipantRosterManager's [toggle(chat, address, op)], is not part of
    the router.  A roster of fewer than two participants admits no roster
    mutation, so removing the last remaining participant is rejected with
    [InvalidOperation] before the executor is touched; otherwise the roster
    change is submitted, and on acceptance the chat is resolved again with
    its participants and returned. *)
Definition toggle (chat : Chat) (addr : JsVal) (op : ToggleAction)
  : Ext (ExecWorld Mirror) ErrorKind Chat :=
  λ w,
    if (length (participants chat) <=? 1)%nat then (Threw InvalidOperation, w)
    else
      let change := {| rc_chatGuid := guid chat; rc_address := addr; rc_op := op |} in
      let (accepted, m) := executor_submit change (mirror w) in
      let w' := {| mirror := m; submitted := (submitted w ++ [change])%list |} in
      if accepted then
        match lift (iMessageRepo_getChats base
                      (Some {| chatGuid := guid chat; withParticipants := true |})) w' with
        | (Returned (chat' :: _), w'') => (Returned chat', w'')
        | (Returned [], w'') => (Threw NotFoundKind, w'')
        | (Threw e, w'') => (Threw e, w'')
        end
      else (Threw ActionRejected, w').

(** The collaborators of the router with this roster manager. *)
Definition services : Services (ExecWorld Mirror) ErrorKind :=
  {| iMessageRepo_getChats := λ p, lift (iMessageRepo_getChats base p);
     iMessageRepo_getChatLastMessage := λ g, lift (iMessageRepo_getChatLastMessage base g);
     iMessageRepo_getChatCount := lift (iMessageRepo_getChatCount base);
     privateApiHelper_markChatRead := λ g, lift (privateApiHelper_markChatRead base g);
     emitMessage := λ n v, lift (emitMessage base n v);
     ChatInterface_get := λ o, lift (ChatInterface_get base o);
     ChatInterface_setDisplayName := λ c n, lift (ChatInterface_setDisplayName base c n);
     ChatInterface_create := λ o, lift (ChatInterface_create base o);
     ChatInterface_toggleParticipant := toggle |}.

End Manager.
End RosterManager.

(** ** Vocabulary of the statements *)

(** The number of chats of [chats] whose service is [s]. *)
Definition chats_of_service (s : string) (chats : list Chat) : nat :=
  length (filter (λ c, serviceName c = s) chats).

(** The sum of the counts of a breakdown. *)
Definition breakdown_sum (m : gmap string nat) : nat :=
  map_fold (λ _ n acc, n + acc) 0 m.

(** The parameters of the lookup of one chat with its participants, as
    [update] and [toggleParticipant] make it. *)
Definition by_guid (g : string) (withP : bool) : option ChatParams :=
  Some {| chatGuid := g; withParticipants := withP |}.

(** The payload of the event [chat-read-status-changed]. *)
Definition read_status (g : string) : JsVal :=
  JObj [("chatGuid", JStr g); ("read", JBool true)].

(** ** An in-memory server

    A small instance of the collaborators, on which the handlers run on
    concrete requests: the world is the list of the chats of the mirror,
    exceptions are strings. *)

Module Demo.

Definition alice : Handle := {| address := "+15551234567" |}.
Definition bob : Handle := {| address := "bob@example.com" |}.

Definition hello : Message :=
  {| m_guid := "msg-1"; m_text := "hello"; m_dateCreated := 1000 |}.

Definition team : Chat :=
  {| guid := "iMessage;+;chat1"; displayName := Some "Old name";
     serviceName := "iMessage"; participants := [alice; bob];
     chat_messages := [hello] |}.

Definition direct : Chat :=
  {| guid := "iMessage;-;+15551234567"; displayName := None;
     serviceName := "iMessage"; participants := [alice];
     chat_messages := [] |}.

Definition texts : Chat :=
  {| guid := "SMS;-;+15551234567"; displayName := None;
     serviceName := "SMS"; participants := [alice];
     chat_messages := [] |}.

Definition mirror0 : list Chat := [team; direct; texts].

Definition messageResponse (m : Message) : MessageResponse :=
  {| r_msgGuid := m_guid m; r_text := m_text m;
     r_dateCreated := m_dateCreated m; tempGuid := JUndefined |}.

Definition chatResponse (c : Chat) : ChatResponse :=
  {| r_guid := guid c; r_displayName := displayName c;
     r_participants := participants c; lastMessage := None;
     messages := match chat_messages c with
                 | [] => None
                 | ms => Some (map messageResponse ms)
                 end |}.

Section Generic.
Context {Exn : Type}.
(** How the in-memory server raises, and how an exception reads. *)
Variable raise : string → Exn.
Variable describe : Exn → string.

Definition lib_of : Helpers Exn :=
  {| getChatResponse := chatResponse;
     getMessageResponse := messageResponse;
     safeTrim := λ s, s;
     toLowerCase := λ s, s;
     parseInt10 := λ v, v;
     exMessage := describe;
     value_emptiness := λ v, negb (truthy v) |}.

Definition lookup_chats (p : option ChatParams) (w : list Chat) : list Chat :=
  match p with
  | None => w
  | Some p => filter (λ c, guid c = chatGuid p) w
  end.

Definition rename (c : Chat) (name : string) : Chat :=
  {| guid := guid c; displayName := Some name; serviceName := serviceName c;
     participants := participants c; chat_messages := chat_messages c |}.

Definition created (opts : CreateOpts) : Chat :=
  {| guid := "iMessage;-;new"; displayName := None; serviceName := "iMessage";
     participants := [alice]; chat_messages := [hello] |}.

Definition server_of : Services (list Chat) Exn :=
  {| iMessageRepo_getChats := λ p w, (Returned (lookup_chats p w), w);
     iMessageRepo_getChatLastMessage := λ g w,
       match filter (λ c, guid c = g) w with
       | c :: _ =>
           match last (chat_messages c) with
           | Some m => (Returned m, w)
           | None => (Threw (raise "no message"), w)
           end
       | [] => (Threw (raise "no chat"), w)
       end;
     iMessageRepo_getChatCount := λ w, (Returned (length w), w);
     privateApiHelper_markChatRead := λ g w, (Returned JUndefined, w);
     emitMessage := λ name payload w, (Returned (), w);
     ChatInterface_get := λ opts w,
       (Returned (map chatResponse
                    (match g_guid opts with
                     | JStr g => filter (λ c, guid c = g) w
                     | _ => w
                     end)), w);
     ChatInterface_setDisplayName := λ c name w,
       match name with
       | JStr s => (Returned (rename c s),
                    map (λ c', if decide (guid c' = guid c) then rename c' s else c') w)
       | _ => (Threw (raise "display name is not a string"), w)
       end;
     ChatInterface_create := λ opts w,
       (Returned (Some (created opts)), w ++ [created opts])%list;
     ChatInterface_toggleParticipant := λ c addr action w, (Returned c, w) |}.

End Generic.

Definition server : Services (list Chat) string := server_of (λ s, s).
Definition lib : Helpers string := lib_of (λ s, s).

(** The same server behind the roster manager, with an executor that
    accepts every change. *)
Definition managed : Services (RosterManager.ExecWorld (list Chat)) RosterManager.ErrorKind :=
  RosterManager.services (server_of (λ _, RosterManager.NotFoundKind))
                         (λ change m, (true, m)).

Definition managed_lib : Helpers RosterManager.ErrorKind :=
  lib_of (λ _, "error").

Definition managed_st0 : St (RosterManager.ExecWorld (list Chat)) :=
  {| world := {| RosterManager.mirror := mirror0; RosterManager.submitted := [] |};
     calls := [] |}.

Definition st0 : St (list Chat) := {| world := mirror0; calls := [] |}.

Definition request (g : string) (fields : list (string * JsVal)) : RouterContext :=
  {| params_guid := g; query_with := JUndefined; body := Some fields |}.

End Demo.

(** ** The remaining handlers of the router

    [getMessages], [getGroupIcon] and [deleteChat] use three more calls of the
    collaborators and the file system.  They run in a world that also keeps
    the log of those calls. *)

(** The parameters of [iMessageRepo.getMessages], as [getMessages] builds
    them. *)
Record DBMessageParams : Type := {
  mp_chatGuid : string;
  mp_withAttachments : bool;
  mp_withHandle : bool;
  mp_offset : JsVal;
  mp_limit : JsVal;
  mp_sort : JsVal;
  mp_before : JsVal;
  mp_after : JsVal
}.

Inductive RestCall : Type :=
| GetMessages (opts : DBMessageParams)
| GetGroupIconPath (g : string)
| InterfaceDelete (g : string).

Record RestWorld (World : Type) : Type := {
  inner : World;
  rest_calls : list RestCall
}.
Arguments inner {World} _.
Arguments rest_calls {World} _.
Arguments Build_RestWorld {World} _ _.

(** The collaborators these handlers use besides [getChats]:
    [iMessageRepo.getMessages] (whose result may be null),
    [iMessageRepo.getGroupIconPath] (a path, or nothing),
    [ChatInterface.delete] and the static [FileSystem.getRealPath]. *)
Record RestServices (World Exn : Type) : Type := {
  iMessageRepo_getMessages : DBMessageParams → Ext World Exn (option (list Message));
  iMessageRepo_getGroupIconPath : string → Ext World Exn (option string);
  ChatInterface_delete : string → Ext World Exn unit;
  FileSystem_getRealPath : string → string
}.
Arguments iMessageRepo_getMessages {World Exn} _.
Arguments iMessageRepo_getGroupIconPath {World Exn} _.
Arguments ChatInterface_delete {World Exn} _.
Arguments FileSystem_getRealPath {World Exn} _.

(** The body of [new FileStream(ctx, path, mimeType)]. *)
Record FileStream : Type := {
  fs_path : string;
  fs_mimeType : string
}.

Module ChatRouterRest.
Section Router.
Context {World Exn : Type}.
Variable Server : Services World Exn.
Variable Rest : RestServices World Exn.
Variable lib : Helpers Exn.

(** A collaborator of the first handlers, run in the world with the log. *)
Definition on_inner {R} (f : Ext World Exn R) : Ext (RestWorld World) Exn R :=
  λ w, let (r, w') := f (inner w) in
       (r, {| inner := w'; rest_calls := rest_calls w |}).

(** [await f] for one of the three further calls: logged, then made. *)
Definition call_rest {R} (c : RestCall) (f : Ext World Exn R)
  : M (RestWorld World) Exn R :=
  λ st, let (r, w') := f (inner (world st)) in
        let st' := {| world := {| inner := w';
                                  rest_calls := (rest_calls (world st) ++ [c])%list |};
                      calls := calls st |} in
        match r with
        | Returned a => (Returned a, st')
        | Threw ex => (Threw (Raised ex), st')
        end.

(** [!iconPath] *)
Definition no_path (iconPath : option string) : bool :=
  match iconPath with
  | None | Some EmptyString => true
  | Some (String _ _) => false
  end.

(** [getMessages]; [query] stands for the fields of [ctx.request.query]
    other than [with], which [query_with ctx] holds. *)
Definition getMessages (ctx : RouterContext) (query : list (string * JsVal))
  : M (RestWorld World) Exn (Success (list MessageResponse)) :=
  match ChatRouter.find_withQuery lib ctx with
  | None => throw TypeError
  | Some withQuery =>
    let withAttachments :=
      includes withQuery "attachment" || includes withQuery "attachments" in
    let withHandle := includes withQuery "handle" || includes withQuery "handles" in
    let sort := prop (Some query) "sort" in
    let before := prop (Some query) "before" in
    let after := prop (Some query) "after" in
    let offset := prop (Some query) "offset" in
    let limit := prop (Some query) "limit" in
    chats ←' call (GetChats (Some {| chatGuid := params_guid ctx;
                                     withParticipants := false |}))
                  (on_inner (iMessageRepo_getChats Server
                               (Some {| chatGuid := params_guid ctx;
                                        withParticipants := false |})));
    if isEmpty chats then throw (NotFound None "Chat does not exist!")
    else
      let opts :=
        {| mp_chatGuid := params_guid ctx;
           mp_withAttachments := withAttachments;
           mp_withHandle := withHandle;
           mp_offset := if truthy offset then parseInt10 lib offset else JNum (0 # 1);
           mp_limit := if truthy limit then parseInt10 lib limit else JNum (100 # 1);
           mp_sort := sort;
           mp_before := if truthy before then parseInt10 lib before else JNull;
           mp_after := if truthy after then parseInt10 lib after else JNull |} in
      messages ←' call_rest (GetMessages opts) (iMessageRepo_getMessages Rest opts);
      (* for (const msg of messages ?? []) results.push(await getMessageResponse(msg)) *)
      let results := map (getMessageResponse lib) (default [] messages) in
      ret (Build_Success None (Some results) None)
  end.

Definition getGroupIcon (ctx : RouterContext) : M (RestWorld World) Exn FileStream :=
  chats ←' call (GetChats (Some {| chatGuid := params_guid ctx;
                                   withParticipants := false |}))
                (on_inner (iMessageRepo_getChats Server
                             (Some {| chatGuid := params_guid ctx;
                                      withParticipants := false |})));
  if isEmpty chats then throw (NotFound None "Chat does not exist!")
  else
    let chat := chats !!! 0%nat in
    iconPath ←' call_rest (GetGroupIconPath (guid chat))
                          (iMessageRepo_getGroupIconPath Rest (guid chat));
    if no_path iconPath then
      throw (NotFound (Some "The requested resource was not found")
                      "Unable to find icon for the selected chat")
    else
      ret {| fs_path := FileSystem_getRealPath Rest (default "" iconPath);
             fs_mimeType := "image/jfif" |}.

Definition deleteChat (ctx : RouterContext) : M (RestWorld World) Exn (Success unit) :=
  let guid := params_guid ctx in
  _ ←' call_rest (InterfaceDelete guid) (ChatInterface_delete Rest guid);
  ret (Build_Success (Some "Successfully deleted chat!") None None).

End Router.
End ChatRouterRest.

(** ** The notifications walkthrough

    The drop zone of the walkthrough page for the Firebase configuration
    files: the counter of nested drag events, the flag shown by the drop
    zones, and the reading of the dropped files. *)

Module NotificationsWalkthrough.

(** An item of the error dialog, as [onDrop] builds it. *)
Record ErrorItem : Type := { id : string; message : string }.

(** The module variable [dragCounter] and the state of the component that
    the handlers write: [isDragging] and [errors]. *)
Record State : Type := {
  dragCounter : Z;
  isDragging : bool;
  errors : list ErrorItem
}.

(** [let dragCounter = 0], [useBoolean()], [useState([])] *)
Definition initial : State :=
  {| dragCounter := 0; isDragging := false; errors := [] |}.

Definition onDragEnter (s : State) : State :=
  let s := if (dragCounter s =? 0)%Z
           then {| dragCounter := dragCounter s; isDragging := true;
                   errors := errors s |}
           else s in
  {| dragCounter := dragCounter s + 1; isDragging := isDragging s;
     errors := errors s |}.

(** [onDragOver] only stops the event. *)
Definition onDragOver (s : State) : State := s.

Definition onDragLeave (s : State) : State :=
  let s := {| dragCounter := dragCounter s - 1; isDragging := isDragging s;
              errors := errors s |} in
  if (dragCounter s =? 0)%Z
  then {| dragCounter := dragCounter s; isDragging := false; errors := errors s |}
  else s.

Definition closeAlert (s : State) : State :=
  {| dragCounter := dragCounter s; isDragging := isDragging s; errors := [] |}.

(** [const alertOpen = errors.length > 0] *)
Definition alertOpen (s : State) : bool := (0 <? length (errors s))%nat.

Section Files.
Context {World Exn Blob Json : Type}.

(** A call of [onDrop] that changes something outside the component. *)
Inductive FcmCall : Type :=
| ReadFile (file : Blob)
| SaveFcmClient (jsonData : Json)
| SaveFcmServer (jsonData : Json)
| Dispatch (name : string) (value : Json).

(** The functions [onDrop] calls: they come from the utilities and actions of
    the user interface and from the runtime; each of them may throw.
    [describe] is the text of [ex?.message ?? String(ex)]. *)
Record Fcm : Type := {
  readFile : Blob → Ext World Exn string;
  isValidClientConfig : string → Outcome Exn bool;
  isValidServerConfig : string → Outcome Exn bool;
  JSON_parse : string → Outcome Exn Json;
  isValidFirebaseUrl : Json → Outcome Exn bool;
  saveFcmClient : Json → Ext World Exn unit;
  saveFcmServer : Json → Ext World Exn unit;
  dispatch_setConfig : string → Json → Ext World Exn unit;
  describe : Exn → string
}.

Record FcmWorld : Type := { fcm_world : World; fcm_calls : list FcmCall }.

(** The body of a [try]: it returns, or ends with the message that the
    [catch] block will record. *)
Definition Try (A : Type) : Type := FcmWorld → Outcome string A * FcmWorld.

Definition try_bind {A B} (m : Try A) (k : A → Try B) : Try B :=
  λ w, match m w with
       | (Returned a, w') => k a w'
       | (Threw msg, w') => (Threw msg, w')
       end.

Variable fcm : Fcm.

(** A call that changes the world: logged, then made. *)
Definition step {R} (c : FcmCall) (f : Ext World Exn R) : Try R :=
  λ w, let (r, w') := f (fcm_world w) in
       let w'' := {| fcm_world := w'; fcm_calls := (fcm_calls w ++ [c])%list |} in
       match r with
       | Returned a => (Returned a, w'')
       | Threw ex => (Threw (describe fcm ex), w'')
       end.

(** A call that only computes. *)
Definition compute {R} (r : Outcome Exn R) : Try R :=
  λ w, match r with
       | Returned a => (Returned a, w)
       | Threw ex => (Threw (describe fcm ex), w)
       end.

(** [throw new Error(msg)] *)
Definition fail {R} (msg : string) : Try R := λ w, (Threw msg, w).

(** The [try] block of the loop of [onDrop], for one file. *)
Definition read_one (file : Blob) : Try unit :=
  try_bind (step (ReadFile file) (readFile fcm file)) (λ fileStr,
  try_bind (compute (isValidClientConfig fcm fileStr)) (λ validClient,
  try_bind (compute (isValidServerConfig fcm fileStr)) (λ validServer,
  try_bind (compute (JSON_parse fcm fileStr)) (λ jsonData,
  if validClient : bool then
    try_bind (compute (isValidFirebaseUrl fcm jsonData)) (λ test,
    if test : bool then
      try_bind (step (SaveFcmClient jsonData) (saveFcmClient fcm jsonData)) (λ _,
      step (Dispatch "fcm_client" jsonData)
           (dispatch_setConfig fcm "fcm_client" jsonData))
    else
      fail ("Your Firebase setup does not have a real-time database enabled. "
            ++ "Please enable the real-time database in your Firebase Console."))
  else if validServer : bool then
    try_bind (step (SaveFcmServer jsonData) (saveFcmServer fcm jsonData)) (λ _,
    step (Dispatch "fcm_server" jsonData)
         (dispatch_setConfig fcm "fcm_server" jsonData))
  else fail "Invalid Google FCM File!")))).

(** The loop [for (let i = 0; i < listCopy.length; i++)], from index [i] on. *)
Fixpoint read_files (i : nat) (listCopy : list Blob) (errors : list ErrorItem)
    (w : FcmWorld) : list ErrorItem * FcmWorld :=
  match listCopy with
  | [] => (errors, w)
  | file :: rest =>
      let (r, w') := read_one file w in
      let errors :=
        match r with
        | Returned _ => errors
        | Threw msg => (errors ++ [{| id := pretty i; message := msg |}])%list
        end in
      read_files (S i) rest errors w'
  end.

(** [onDrop], for the files of [e.dataTransfer.files]. *)
Definition onDrop (files : list Blob) (s : State) (w : FcmWorld) : State * FcmWorld :=
  let s := {| dragCounter := 0; isDragging := false; errors := errors s |} in
  let listCopy := files in
  let (errs, w') := read_files 0 listCopy [] w in
  if (0 <? length errs)%nat
  then ({| dragCounter := dragCounter s; isDragging := isDragging s;
           errors := errs |}, w')
  else (s, w').

(** The events of the drop zone. *)
Inductive Event : Type :=
| DragEnter
| DragOver
| DragLeave
| Drop (files : list Blob)
| CloseAlert.

Definition handle (sw : State * FcmWorld) (e : Event) : State * FcmWorld :=
  match e with
  | DragEnter => (onDragEnter sw.1, sw.2)
  | DragOver => (onDragOver sw.1, sw.2)
  | DragLeave => (onDragLeave sw.1, sw.2)
  | Drop files => onDrop files sw.1 sw.2
  | CloseAlert => (closeAlert sw.1, sw.2)
  end.

(** The state after a sequence of events. *)
Definition run (events : list Event) (sw : State * FcmWorld) : State * FcmWorld :=
  foldl handle sw events.

End Files.

Arguments FcmCall : clear implicits.
Arguments Fcm : clear implicits.
Arguments FcmWorld : clear implicits.
Arguments Event : clear implicits.

End NotificationsWalkthrough.

(** ** More vocabulary *)

(** The number of commas of a string. *)
Fixpoint commas (s : string) : nat :=
  match s with
  | EmptyString => 0
  | String c rest => (if Ascii.eqb c ","%char then 1 else 0) + commas rest
  end.

(** The file that a call of [onDrop] reads, if it is a read. *)
Definition read_of {Blob Json} (c : NotificationsWalkthrough.FcmCall Blob Json)
  : option Blob :=
  match c with
  | NotificationsWalkthrough.ReadFile file => Some file
  | _ => None
  end.

(** A save of a configuration that the validators allow: a client
    configuration is the parsed content of a string that the client check
    accepts, that the server check did not choke on, and whose database
    check passes; a server configuration is the parsed content of a string
    that the client check refuses and the server check accepts. *)
Definition validated {World Exn Blob Json}
    (fcm : NotificationsWalkthrough.Fcm World Exn Blob Json)
    (c : NotificationsWalkthrough.FcmCall Blob Json) : Prop :=
  match c with
  | NotificationsWalkthrough.SaveFcmClient j =>
      ∃ str b,
        NotificationsWalkthrough.isValidClientConfig fcm str = Returned true
        ∧ NotificationsWalkthrough.isValidServerConfig fcm str = Returned b
        ∧ NotificationsWalkthrough.JSON_parse fcm str = Returned j
        ∧ NotificationsWalkthrough.isValidFirebaseUrl fcm j = Returned true
  | NotificationsWalkthrough.SaveFcmServer j =>
      ∃ str,
        NotificationsWalkthrough.isValidClientConfig fcm str = Returned false
        ∧ NotificationsWalkthrough.isValidServerConfig fcm str = Returned true
        ∧ NotificationsWalkthrough.JSON_parse fcm str = Returned j
  | _ => True
  end.

(** In a log of calls of [onDrop], read after the call [prev]: every
    dispatch of a configuration to the store of the page comes directly
    after the save of that same configuration, under the matching name. *)
Fixpoint dispatches_follow_saves {Blob Json}
    (prev : option (NotificationsWalkthrough.FcmCall Blob Json))
    (log : list (NotificationsWalkthrough.FcmCall Blob Json)) : Prop :=
  match log with
  | [] => True
  | c :: log' =>
      match c with
      | NotificationsWalkthrough.Dispatch name j =>
          (name = "fcm_client"
           ∧ prev = Some (NotificationsWalkthrough.SaveFcmClient j))
          ∨ (name = "fcm_server"
             ∧ prev = Some (NotificationsWalkthrough.SaveFcmServer j))
      | _ => True
      end
      ∧ dispatches_follow_saves (Some c) log'
  end.

(** A handler that makes no call through which the action executor can be
    reached: whatever the state, the calls it adds are not mutating. *)
Definition reads_only {World Exn A} (m : M World Exn A) : Prop :=
  ∀ st, ∃ new, calls (m st).2 = (calls st ++ new)%list
               ∧ Forall (λ c, mutating_call c = false) new.

(** The in-memory server for the remaining handlers: messages are those of
    the chat, the team chat has an icon, deleting removes the chat. *)
Module DemoRest.

Definition services : RestServices (list Chat) string :=
  {| iMessageRepo_getMessages := λ opts w,
       (Returned (chat_messages <$> head (filter (λ c, guid c = mp_chatGuid opts) w)), w);
     iMessageRepo_getGroupIconPath := λ g w,
       (Returned (if decide (g = "iMessage;+;chat1")
                  then Some "~/Library/Messages/icon.jfif" else None), w);
     ChatInterface_delete := λ g w,
       (Returned (), filter (λ c, guid c ≠ g) w);
     FileSystem_getRealPath := λ p, "/Users/me" ++ p |}.

Definition st0 : St (RestWorld (list Chat)) :=
  {| world := {| inner := Demo.mirror0; rest_calls := [] |}; calls := [] |}.

(** A store that pages: it returns the messages of the chat from the offset
    on, as many as the limit says. *)
Definition first : Message :=
  {| m_guid := "msg-a"; m_text := "one"; m_dateCreated := 1 |}.
Definition second : Message :=
  {| m_guid := "msg-b"; m_text := "two"; m_dateCreated := 2 |}.
Definition third : Message :=
  {| m_guid := "msg-c"; m_text := "three"; m_dateCreated := 3 |}.

Definition busy : Chat :=
  {| guid := "iMessage;+;chat2"; displayName := None;
     serviceName := "iMessage"; participants := [Demo.alice; Demo.bob];
     chat_messages := [first; second; third] |}.

Definition count_of (v : JsVal) : nat :=
  match v with
  | JNum q => Z.to_nat (Qnum q)
  | _ => 0
  end.

Definition paged : RestServices (list Chat) string :=
  {| iMessageRepo_getMessages := λ opts w,
       (Returned
          ((λ c, take (count_of (mp_limit opts))
                      (drop (count_of (mp_offset opts)) (chat_messages c)))
             <$> head (filter (λ c, guid c = mp_chatGuid opts) w)), w);
     iMessageRepo_getGroupIconPath := iMessageRepo_getGroupIconPath services;
     ChatInterface_delete := ChatInterface_delete services;
     FileSystem_getRealPath := FileSystem_getRealPath services |}.

Definition paged_st0 : St (RestWorld (list Chat)) :=
  {| world := {| inner := [busy]; rest_calls := [] |}; calls := [] |}.

(** A chat whose service is named [__proto__]. *)
Definition odd : Chat :=
  {| guid := "__proto__;-;+15551234567"; displayName := None;
     serviceName := "__proto__"; participants := [Demo.alice];
     chat_messages := [] |}.

(** Configuration files are strings; a file is its content.  A client
    configuration starts with [c], a server configuration with [s]; a client
    configuration has a database when it is [c+]. *)
Definition fcm : NotificationsWalkthrough.Fcm (list string) string string string :=
  {| NotificationsWalkthrough.readFile := λ file w,
       if decide (file = "") then (Threw "unreadable", w) else (Returned file, w);
     NotificationsWalkthrough.isValidClientConfig := λ str,
       Returned (String.prefix "c" str);
     NotificationsWalkthrough.isValidServerConfig := λ str,
       Returned (String.prefix "s" str);
     NotificationsWalkthrough.JSON_parse := λ str, Returned str;
     NotificationsWalkthrough.isValidFirebaseUrl := λ j,
       Returned (String.eqb j "c+");
     NotificationsWalkthrough.saveFcmClient := λ j w, (Returned (), (w ++ [j])%list);
     NotificationsWalkthrough.saveFcmServer := λ j w, (Returned (), (w ++ [j])%list);
     NotificationsWalkthrough.dispatch_setConfig := λ name j w, (Returned (), w);
     NotificationsWalkthrough.describe := λ ex, ex |}.

Definition fcm_w0 : NotificationsWalkthrough.FcmWorld (list string) string string :=
  {| NotificationsWalkthrough.fcm_world := [];
     NotificationsWalkthrough.fcm_calls := [] |}.

End DemoRest.

(** * Properties *)

(** ** The monad *)

Section MonadFacts.
Context {World Exn : Type}.
Implicit Types (st : St World) (c : Call).

Lemma call_returned {R} c (f : Ext World Exn R) st r w :
  f (world st) = (Returned r, w) →
  call c f st = (Returned r, {| world := w; calls := calls st ++ [c] |}).
Proof. intros Hf. unfold call, bind, attempt. by rewrite Hf. Qed.

Lemma call_threw {R} c (f : Ext World Exn R) st ex w :
  f (world st) = (Threw ex, w) →
  call c f st = (Threw (Raised ex), {| world := w; calls := calls st ++ [c] |}).
Proof. intros Hf. unfold call, bind, attempt. by rewrite Hf. Qed.

Lemma bind_returned {A B} (m : M World Exn A) (k : A → M World Exn B) st a st' :
  m st = (Returned a, st') → bind m k st = k a st'.
Proof. intros Hm. unfold bind. by rewrite Hm. Qed.

Lemma bind_threw {A B} (m : M World Exn A) (k : A → M World Exn B) st t st' :
  m st = (Threw t, st') → bind m k st = (Threw t, st').
Proof. intros Hm. unfold bind. by rewrite Hm. Qed.

End MonadFacts.

(** ** Counting chats per service *)

Lemma includes_Object_keys (m : gmap string nat) (k : string) :
  includes (ChatRouter.Object_keys m) k = bool_decide (is_Some (m !! k)).
Proof.
  unfold includes, ChatRouter.Object_keys. apply bool_decide_ext.
  rewrite list_elem_of_fmap. split.
  - intros [[k' n] [-> Hin]]. apply elem_of_map_to_list in Hin. eauto.
  - intros [n Hn]. exists (k, n). split; [done|]. by apply elem_of_map_to_list.
Qed.

Lemma count_chat_proto (m : gmap string nat) (chat : Chat) :
  serviceName chat = "__proto__" → ChatRouter.count_chat m chat = m.
Proof.
  intros Hk. unfold ChatRouter.count_chat, ChatRouter.assign. rewrite Hk. simpl.
  destruct (negb _); by destruct (m !! "__proto__").
Qed.

Lemma count_chat_insert (m : gmap string nat) (chat : Chat) :
  serviceName chat ≠ "__proto__" →
  ChatRouter.count_chat m chat
  = <[serviceName chat := default 0 (m !! serviceName chat) + 1]> m.
Proof.
  intros Hk. unfold ChatRouter.count_chat, ChatRouter.assign.
  rewrite includes_Object_keys.
  destruct (String.eqb_spec (serviceName chat) "__proto__") as [|_]; [done|].
  destruct (m !! serviceName chat) as [n|] eqn:Hm.
  - rewrite bool_decide_eq_true_2 by eauto. simpl. by rewrite Hm.
  - rewrite bool_decide_eq_false_2 by (intros [? ?]; congruence). simpl.
    rewrite lookup_insert_eq. by rewrite insert_insert_eq.
Qed.

Lemma count_chat_lookup (m : gmap string nat) (chat : Chat) (s : string) :
  ChatRouter.count_chat m chat !! s
  = if decide (serviceName chat = s ∧ s ≠ "__proto__")
    then Some (default 0 (m !! s) + 1)
    else m !! s.
Proof.
  destruct (decide (serviceName chat = "__proto__")) as [Hk|Hk].
  - rewrite count_chat_proto by done.
    case_decide as Hs; [|done]. destruct Hs as [<- Hs]. done.
  - rewrite count_chat_insert by done. rewrite lookup_insert.
    destruct (decide (serviceName chat = s)) as [<-|Hne].
    + by rewrite decide_True.
    + rewrite decide_False; [done|]. by intros [? _].
Qed.

Lemma breakdown_sum_insert (m : gmap string nat) (k : string) (n : nat) :
  breakdown_sum (<[k := n]> m) + default 0 (m !! k) = breakdown_sum m + n.
Proof.
  unfold breakdown_sum.
  destruct (m !! k) as [n0|] eqn:Hk; simpl.
  - rewrite <- insert_delete_eq.
    rewrite map_fold_insert_L; [| intros; lia | apply lookup_delete_eq].
    rewrite (map_fold_delete_L _ _ k n0 m); [lia | intros; lia | done].
  - rewrite map_fold_insert_L; [lia | intros; lia | done].
Qed.

Lemma count_chat_sum (m : gmap string nat) (chat : Chat) :
  breakdown_sum (ChatRouter.count_chat m chat)
  = breakdown_sum m + (if decide (serviceName chat = "__proto__") then 0 else 1).
Proof.
  case_decide as Hk.
  - rewrite count_chat_proto by done. lia.
  - rewrite count_chat_insert by done.
    pose proof (breakdown_sum_insert m (serviceName chat)
                  (default 0 (m !! serviceName chat) + 1)). lia.
Qed.

Lemma foldl_count_chat_sum (chats : list Chat) (m : gmap string nat) :
  breakdown_sum (foldl ChatRouter.count_chat m chats)
  + chats_of_service "__proto__" chats
  = breakdown_sum m + length chats.
Proof.
  revert m. induction chats as [|chat chats IH]; intros m; simpl.
  { unfold chats_of_service. simpl. lia. }
  specialize (IH (ChatRouter.count_chat m chat)).
  rewrite count_chat_sum in IH. unfold chats_of_service in *.
  rewrite filter_cons. repeat case_decide; simpl; lia.
Qed.

Lemma foldl_count_chat_lookup (chats : list Chat) (m : gmap string nat) (s : string) :
  foldl ChatRouter.count_chat m chats !! s
  = if decide (s = "__proto__" ∨ chats_of_service s chats = 0)
    then m !! s
    else Some (default 0 (m !! s) + chats_of_service s chats).
Proof.
  revert m. induction chats as [|chat chats IH]; intros m; simpl.
  { by rewrite decide_True by (by right). }
  rewrite IH, count_chat_lookup. clear IH. unfold chats_of_service.
  rewrite filter_cons.
  destruct (decide (serviceName chat = s)) as [Heq|Hne]; simpl;
    repeat case_decide; destruct_and?; destruct_or?;
    try done; try congruence; try (simpl; f_equal; lia);
    exfalso; simpl in *; intuition (try congruence; lia).
Qed.

(** X25.  The count summary as the handler gives it: [total] is the number of
    chats the store returns for the unfiltered query; for every service name
    other than [__proto__], [breakdown] holds the number of chats of that
    service when there are some and no key otherwise; [__proto__] is never a
    key; and the counts of the breakdown add up to [total] less the number
    of chats whose service is named [__proto__]. *)
Theorem count_summary {World Exn} (Server : Services World Exn)
    (ctx : RouterContext) (st : St World) (chats : list Chat) (w : World) :
  iMessageRepo_getChats Server None (world st) = (Returned chats, w) →
  ∃ data,
    ChatRouter.count Server ctx st
    = (Returned (Build_Success None (Some data) None),
       {| world := w; calls := calls st ++ [GetChats None] |})
    ∧ ChatRouter.total data = length chats
    ∧ (∀ s, ChatRouter.breakdown data !! s
            = if decide (s = "__proto__" ∨ chats_of_service s chats = 0) then None
              else Some (chats_of_service s chats))
    ∧ (breakdown_sum (ChatRouter.breakdown data)
       + chats_of_service "__proto__" chats = ChatRouter.total data)%nat.
Proof.
  intros Hget. eexists. split; [|split; [|split]].
  - unfold ChatRouter.count.
    erewrite bind_returned by (apply call_returned; exact Hget). reflexivity.
  - reflexivity.
  - intros s. simpl. rewrite foldl_count_chat_lookup, lookup_empty.
    by case_decide.
  - simpl. rewrite foldl_count_chat_sum. unfold breakdown_sum.
    by rewrite map_fold_empty.
Qed.

Lemma count_summary_witness :
  iMessageRepo_getChats Demo.server None (world Demo.st0)
  = (Returned Demo.mirror0, Demo.mirror0)
  ∧ ∃ data,
      ChatRouter.count Demo.server (Demo.request "" []) Demo.st0
      = (Returned (Build_Success None (Some data) None),
         {| world := Demo.mirror0; calls := [GetChats None] |})
      ∧ ChatRouter.total data = 3
      ∧ (∀ s, ChatRouter.breakdown data !! s
              = if decide (s = "__proto__" ∨ chats_of_service s Demo.mirror0 = 0)
                then None
                else Some (chats_of_service s Demo.mirror0))
      ∧ (breakdown_sum (ChatRouter.breakdown data)
         + chats_of_service "__proto__" Demo.mirror0 = ChatRouter.total data)%nat.
Proof.
  split; [reflexivity|].
  exact (count_summary Demo.server (Demo.request "" []) Demo.st0
           Demo.mirror0 Demo.mirror0 eq_refl).
Defined.

(** C5, at a chat list on which the handler departs from it.  One chat of
    the service [__proto__] and one of [iMessage]: the handler answers with
    a total of two, but the service [__proto__], which occurs once, has no
    entry in the breakdown, and the counts of the breakdown add up to one. *)
Theorem count_loses_proto_service :
  let st := {| world := [DemoRest.odd; Demo.team]; calls := [] |} in
  ∃ data,
    (ChatRouter.count Demo.server (Demo.request "" []) st).1
    = Returned (Build_Success None (Some data) None)
    ∧ ChatRouter.total data = 2
    ∧ chats_of_service "__proto__" [DemoRest.odd; Demo.team] = 1
    ∧ ChatRouter.breakdown data !! "__proto__" = None
    ∧ ChatRouter.breakdown data = {[ "iMessage" := 1 ]}
    ∧ breakdown_sum (ChatRouter.breakdown data) = 1.
Proof.
  eexists. split; [reflexivity|]. vm_compute. done.
Qed.

Example count_demo :
  (ChatRouter.count Demo.server (Demo.request "" []) Demo.st0).1
  = Returned (Build_Success None
                (Some {| ChatRouter.total := 3;
                         ChatRouter.breakdown := {[ "iMessage" := 2; "SMS" := 1 ]} |})
                None).
Proof. vm_compute. reflexivity. Qed.

(** ** Updating a chat *)

Section UpdateFacts.
Context {World Exn : Type}.
Variable Server : Services World Exn.
Variable lib : Helpers Exn.
Implicit Types (ctx : RouterContext) (st : St World).

(** [update] up to the point where the chat is resolved. *)
Lemma update_resolved ctx st chat rest w :
  iMessageRepo_getChats Server (by_guid (params_guid ctx) true) (world st)
  = (Returned (chat :: rest), w) →
  truthy (prop (body ctx) "displayName") = false →
  ChatRouter.update Server lib ctx st
  = (Returned (Build_Success
                 (Some "Chat not updated! No update information provided!")
                 (Some (getChatResponse lib chat)) None),
     {| world := w;
        calls := calls st ++ [GetChats (by_guid (params_guid ctx) true)] |}).
Proof.
  intros Hget Hfalsy. unfold ChatRouter.update.
  erewrite bind_returned by (apply call_returned; exact Hget).
  simpl. rewrite Hfalsy. reflexivity.
Qed.

Lemma update_not_a_group ctx st chat rest w :
  iMessageRepo_getChats Server (by_guid (params_guid ctx) true) (world st)
  = (Returned (chat :: rest), w) →
  truthy (prop (body ctx) "displayName") = true →
  (length (participants chat) ≤ 1)%nat →
  ChatRouter.update Server lib ctx st
  = (Threw (IMessageError (Some "Cannot rename a non-group chat!")
                          "Chat is not a group"),
     {| world := w;
        calls := calls st ++ [GetChats (by_guid (params_guid ctx) true)] |}).
Proof.
  intros Hget Htruthy Hlen. unfold ChatRouter.update.
  erewrite bind_returned by (apply call_returned; exact Hget).
  simpl. rewrite Htruthy.
  destruct (Nat.leb_spec (length (participants chat)) 1) as [_|Hgt]; [|lia].
  reflexivity.
Qed.

Lemma update_group ctx st chat rest w o w' :
  iMessageRepo_getChats Server (by_guid (params_guid ctx) true) (world st)
  = (Returned (chat :: rest), w) →
  truthy (prop (body ctx) "displayName") = true →
  (1 < length (participants chat))%nat →
  ChatInterface_setDisplayName Server chat (prop (body ctx) "displayName") w
  = (o, w') →
  ChatRouter.update Server lib ctx st
  = (match o with
     | Returned chat' =>
         Returned (Build_Success
                     (Some "Successfully updated the following fields: displayName")
                     (Some (getChatResponse lib chat')) None)
     | Threw ex =>
         Threw (IMessageError (Some "Chat update executed with errors!")
                              (exMessage lib ex))
     end,
     {| world := w';
        calls := calls st ++ [GetChats (by_guid (params_guid ctx) true);
                              InterfaceSetDisplayName chat
                                (prop (body ctx) "displayName")] |}).
Proof.
  intros Hget Htruthy Hlen Hset. unfold ChatRouter.update.
  erewrite bind_returned by (apply call_returned; exact Hget).
  simpl. rewrite Htruthy.
  destruct (Nat.leb_spec (length (participants chat)) 1) as [Hle|_]; [lia|].
  unfold bind, attempt; simpl. rewrite Hset.
  destruct o; simpl; rewrite <- app_assoc; reflexivity.
Qed.

End UpdateFacts.

(** C2.  Renaming a chat that is not a group: when the request carries a
    (truthy) [displayName] and the resolved chat has at most one
    participant, [update] fails with the error "Chat is not a group" (the
    invalid operation of the error taxonomy).  The failure comes right after
    the lookup of the chat: the world is the one the message store left, the
    only call made is that lookup, and no call that can reach the action
    executor was made. *)
Theorem update_displayName_non_group {World Exn} (Server : Services World Exn)
    (lib : Helpers Exn) (ctx : RouterContext) (st : St World)
    (chat : Chat) (rest : list Chat) (w : World) :
  iMessageRepo_getChats Server (by_guid (params_guid ctx) true) (world st)
  = (Returned (chat :: rest), w) →
  truthy (prop (body ctx) "displayName") = true →
  (length (participants chat) ≤ 1)%nat →
  let r := ChatRouter.update Server lib ctx st in
  r.1 = Threw (IMessageError (Some "Cannot rename a non-group chat!")
                             "Chat is not a group")
  ∧ world r.2 = w
  ∧ calls r.2 = (calls st ++ [GetChats (by_guid (params_guid ctx) true)])%list
  ∧ ∀ c, c ∈ calls r.2 → c ∈ calls st ∨ mutating_call c = false.
Proof.
  intros Hget Htruthy Hlen r. subst r.
  rewrite (update_not_a_group Server lib ctx st chat rest w) by done. simpl.
  repeat split.
  intros c Hc. apply elem_of_app in Hc as [Hc|Hc]; [by left|].
  apply list_elem_of_singleton in Hc as ->. by right.
Qed.

Lemma update_displayName_non_group_witness :
  let ctx := Demo.request "iMessage;-;+15551234567" [("displayName", JStr "Team")] in
  let r := ChatRouter.update Demo.server Demo.lib ctx Demo.st0 in
  r.1 = Threw (IMessageError (Some "Cannot rename a non-group chat!")
                             "Chat is not a group")
  ∧ world r.2 = Demo.mirror0
  ∧ calls r.2 = [GetChats (by_guid "iMessage;-;+15551234567" true)]
  ∧ ∀ c, c ∈ calls r.2 → c ∈ [] ∨ mutating_call c = false.
Proof.
  apply (update_displayName_non_group Demo.server Demo.lib
           (Demo.request "iMessage;-;+15551234567" [("displayName", JStr "Team")])
           Demo.st0 Demo.direct [] Demo.mirror0).
  - reflexivity.
  - reflexivity.
  - simpl. lia.
Defined.

(** C4, as the code has it.  [displayName] is the only field [update]
    knows.  On a chat with more than one participant the rename is
    attempted, whatever it does: when it throws, the exception is caught and
    reported after the attempt as the aggregate error "Chat update executed
    with errors!" with the joined messages; when it returns, the response
    lists [displayName] among the updated fields and carries the renamed
    chat.  On a chat with at most one participant the rename is not
    attempted: [update] stops at once with "Cannot rename a non-group
    chat!". *)
Theorem update_reports_displayName {World Exn} (Server : Services World Exn)
    (lib : Helpers Exn) (ctx : RouterContext) (st : St World)
    (chat : Chat) (rest : list Chat) (w : World) :
  iMessageRepo_getChats Server (by_guid (params_guid ctx) true) (world st)
  = (Returned (chat :: rest), w) →
  truthy (prop (body ctx) "displayName") = true →
  let name := prop (body ctx) "displayName" in
  let resolve := GetChats (by_guid (params_guid ctx) true) in
  ((1 < length (participants chat))%nat →
   ∀ o w', ChatInterface_setDisplayName Server chat name w = (o, w') →
     ChatRouter.update Server lib ctx st
     = (match o with
        | Returned chat' =>
            Returned (Build_Success
                        (Some "Successfully updated the following fields: displayName")
                        (Some (getChatResponse lib chat')) None)
        | Threw ex =>
            Threw (IMessageError (Some "Chat update executed with errors!")
                                 (exMessage lib ex))
        end,
        {| world := w';
           calls := calls st ++ [resolve; InterfaceSetDisplayName chat name] |}))
  ∧ ((length (participants chat) ≤ 1)%nat →
     ChatRouter.update Server lib ctx st
     = (Threw (IMessageError (Some "Cannot rename a non-group chat!")
                             "Chat is not a group"),
        {| world := w; calls := calls st ++ [resolve] |})).
Proof.
  intros Hget Htruthy name resolve. split.
  - intros Hlen o w' Hset. by apply (update_group Server lib ctx st chat rest w).
  - intros Hlen. by apply (update_not_a_group Server lib ctx st chat rest w).
Qed.

Lemma update_reports_displayName_witness :
  let ctx := Demo.request "iMessage;+;chat1" [("displayName", JNum (5 # 1))] in
  ChatRouter.update Demo.server Demo.lib ctx Demo.st0
  = (Threw (IMessageError (Some "Chat update executed with errors!")
                          "display name is not a string"),
     {| world := Demo.mirror0;
        calls := [GetChats (by_guid "iMessage;+;chat1" true);
                  InterfaceSetDisplayName Demo.team (JNum (5 # 1))] |}).
Proof.
  refine (proj1 (update_reports_displayName Demo.server Demo.lib
                   (Demo.request "iMessage;+;chat1" [("displayName", JNum (5 # 1))])
                   Demo.st0 Demo.team [] Demo.mirror0 _ _) _
                (Threw "display name is not a string") Demo.mirror0 _).
  - reflexivity.
  - reflexivity.
  - simpl. lia.
  - reflexivity.
Defined.

(** C4, as the claim states it, fails: a rename requested on a chat with one
    participant is never attempted, and the error is not the aggregate one. *)
Lemma update_aborts_without_attempt :
  let ctx := Demo.request "iMessage;-;+15551234567" [("displayName", JStr "Team")] in
  let r := ChatRouter.update Demo.server Demo.lib ctx Demo.st0 in
  truthy (prop (body ctx) "displayName") = true
  ∧ r.1 = Threw (IMessageError (Some "Cannot rename a non-group chat!")
                               "Chat is not a group")
  ∧ r.1 ≠ Threw (IMessageError (Some "Chat update executed with errors!")
                               "Chat is not a group")
  ∧ ¬ ∃ chat name, InterfaceSetDisplayName chat name ∈ calls r.2.
Proof.
  vm_compute. repeat split; [discriminate|].
  intros (chat & name & Hin).
  apply list_elem_of_singleton in Hin. discriminate.
Qed.

(** C10.  An update that names no field: when the chat exists and the
    request has no [displayName], or a falsy one, [update] succeeds with the
    response of the chat as the store returned it and the message "Chat not
    updated! No update information provided!"; the only call made is the
    lookup of the chat. *)
Theorem update_without_fields {World Exn} (Server : Services World Exn)
    (lib : Helpers Exn) (ctx : RouterContext) (st : St World)
    (chat : Chat) (rest : list Chat) (w : World) :
  iMessageRepo_getChats Server (by_guid (params_guid ctx) true) (world st)
  = (Returned (chat :: rest), w) →
  truthy (prop (body ctx) "displayName") = false →
  let r := ChatRouter.update Server lib ctx st in
  r.1 = Returned (Build_Success
                    (Some "Chat not updated! No update information provided!")
                    (Some (getChatResponse lib chat)) None)
  ∧ world r.2 = w
  ∧ calls r.2 = (calls st ++ [GetChats (by_guid (params_guid ctx) true)])%list
  ∧ ∀ c, c ∈ calls r.2 → c ∈ calls st ∨ mutating_call c = false.
Proof.
  intros Hget Hfalsy r. subst r.
  rewrite (update_resolved Server lib ctx st chat rest w) by done. simpl.
  repeat split.
  intros c Hc. apply elem_of_app in Hc as [Hc|Hc]; [by left|].
  apply list_elem_of_singleton in Hc as ->. by right.
Qed.

Lemma update_without_fields_witness :
  let ctx := Demo.request "iMessage;+;chat1" [("displayName", JStr "")] in
  let r := ChatRouter.update Demo.server Demo.lib ctx Demo.st0 in
  r.1 = Returned (Build_Success
                    (Some "Chat not updated! No update information provided!")
                    (Some (Demo.chatResponse Demo.team)) None)
  ∧ world r.2 = Demo.mirror0
  ∧ calls r.2 = [GetChats (by_guid "iMessage;+;chat1" true)]
  ∧ ∀ c, c ∈ calls r.2 → c ∈ [] ∨ mutating_call c = false.
Proof.
  apply (update_without_fields Demo.server Demo.lib
           (Demo.request "iMessage;+;chat1" [("displayName", JStr "")])
           Demo.st0 Demo.team [] Demo.mirror0).
  - reflexivity.
  - reflexivity.
Defined.

(** ** Creating a chat *)

Lemma inject_tempGuid_messages (t : JsVal) (data : ChatResponse) :
  messages (ChatRouter.inject_tempGuid t data)
  = map (set_tempGuid t) <$> messages data.
Proof.
  unfold ChatRouter.inject_tempGuid.
  destruct (messages data) as [ms|] eqn:Hm; simpl; [done|by rewrite Hm].
Qed.

Lemma inject_tempGuid_no_messages (t : JsVal) (data : ChatResponse) :
  messages data = None ∨ messages data = Some [] →
  ChatRouter.inject_tempGuid t data = data.
Proof.
  unfold ChatRouter.inject_tempGuid. intros [Hm|Hm]; rewrite Hm; [done|].
  destruct data; simpl in *. unfold set_messages; simpl. by rewrite Hm.
Qed.

(** C1.  The tempGuid of a create request: when [ChatInterface.create]
    returns a chat, [create] answers with the response of that chat, in which
    - if [tempGuid] is supplied (not empty for [isNotEmpty]), the messages
      are those of the chat response, each with [tempGuid] set to exactly the
      supplied value, so every message of the answer carries it, and nothing
      else of the response changes;
    - if [tempGuid] is not supplied, or the chat response has no messages,
      the answer is the chat response itself. *)
Theorem create_injects_tempGuid {World Exn} (Server : Services World Exn)
    (lib : Helpers Exn) (ctx : RouterContext) (st : St World)
    (chat : Chat) (w : World) :
  let t := prop (body ctx) "tempGuid" in
  let opts := {| c_addresses := prop (body ctx) "addresses";
                 c_message := prop (body ctx) "message";
                 c_method := prop (body ctx) "method";
                 c_service := prop (body ctx) "service";
                 c_tempGuid := t |} in
  let supplied := @isNotEmpty _ (value_emptiness lib) t in
  ChatInterface_create Server opts (world st) = (Returned (Some chat), w) →
  ∃ data,
    ChatRouter.create Server lib ctx st
    = (Returned (Build_Success (Some "Successfully created chat!") (Some data) None),
       {| world := w; calls := calls st ++ [InterfaceCreate opts] |})
    ∧ (supplied = true →
       messages data = map (set_tempGuid t) <$> messages (getChatResponse lib chat)
       ∧ (∀ ms i, messages data = Some ms → i ∈ ms → tempGuid i = t)
       ∧ r_guid data = r_guid (getChatResponse lib chat)
       ∧ r_displayName data = r_displayName (getChatResponse lib chat)
       ∧ r_participants data = r_participants (getChatResponse lib chat)
       ∧ lastMessage data = lastMessage (getChatResponse lib chat))
    ∧ (supplied = false
       ∨ messages (getChatResponse lib chat) = None
       ∨ messages (getChatResponse lib chat) = Some [] →
       data = getChatResponse lib chat).
Proof.
  intros t opts supplied Hcreate.
  exists (if supplied then ChatRouter.inject_tempGuid t (getChatResponse lib chat)
          else getChatResponse lib chat).
  split; [|split].
  - unfold ChatRouter.create.
    erewrite bind_returned by (apply call_returned; exact Hcreate).
    reflexivity.
  - intros ->. rewrite inject_tempGuid_messages.
    split; [done|]. split.
    + intros ms i Hms Hi.
      destruct (messages (getChatResponse lib chat)) as [ms0|]; [|done].
      simpl in Hms. injection Hms as <-.
      apply list_elem_of_fmap in Hi as (i0 & -> & _). done.
    + unfold ChatRouter.inject_tempGuid.
      by destruct (messages (getChatResponse lib chat)).
  - intros Hcase. destruct supplied eqn:Hs; [|done].
    destruct Hcase as [?|Hcase]; [done|].
    by apply inject_tempGuid_no_messages.
Qed.

Lemma create_injects_tempGuid_witness :
  let ctx := Demo.request "" [("addresses", JArr [JStr "+15551234567"]);
                              ("service", JStr "iMessage");
                              ("tempGuid", JStr "abc123")] in
  ∃ data,
    ChatRouter.create Demo.server Demo.lib ctx Demo.st0
    = (Returned (Build_Success (Some "Successfully created chat!") (Some data) None),
       {| world := (Demo.mirror0 ++ [Demo.created
                    {| c_addresses := JArr [JStr "+15551234567"];
                       c_message := JUndefined; c_method := JUndefined;
                       c_service := JStr "iMessage";
                       c_tempGuid := JStr "abc123" |}])%list;
          calls := [InterfaceCreate
                    {| c_addresses := JArr [JStr "+15551234567"];
                       c_message := JUndefined; c_method := JUndefined;
                       c_service := JStr "iMessage";
                       c_tempGuid := JStr "abc123" |}] |})
    ∧ ∀ ms i, messages data = Some ms → i ∈ ms → tempGuid i = JStr "abc123".
Proof.
  intros ctx.
  destruct (create_injects_tempGuid Demo.server Demo.lib ctx Demo.st0
              (Demo.created
                 {| c_addresses := JArr [JStr "+15551234567"];
                    c_message := JUndefined; c_method := JUndefined;
                    c_service := JStr "iMessage";
                    c_tempGuid := JStr "abc123" |})
              (Demo.mirror0 ++ [Demo.created
                    {| c_addresses := JArr [JStr "+15551234567"];
                       c_message := JUndefined; c_method := JUndefined;
                       c_service := JStr "iMessage";
                       c_tempGuid := JStr "abc123" |}])%list
              eq_refl) as (data & Hrun & Hsupplied & _).
  exists data. split; [exact Hrun|].
  exact (proj1 (proj2 (Hsupplied eq_refl))).
Defined.

Example create_demo :
  let ctx := Demo.request "" [("addresses", JArr [JStr "+15551234567"]);
                              ("service", JStr "iMessage");
                              ("tempGuid", JStr "abc123")] in
  (s_data <$> match (ChatRouter.create Demo.server Demo.lib ctx Demo.st0).1 with
              | Returned x => Some x | Threw _ => None end)
  = Some (Some {| r_guid := "iMessage;-;new"; r_displayName := None;
                  r_participants := [Demo.alice]; lastMessage := None;
                  messages := Some [ {| r_msgGuid := "msg-1"; r_text := "hello";
                                        r_dateCreated := 1000;
                                        tempGuid := JStr "abc123" |} ] |}).
Proof. reflexivity. Qed.

Example create_without_tempGuid :
  let ctx := Demo.request "" [("addresses", JArr [JStr "+15551234567"])] in
  (ChatRouter.create Demo.server Demo.lib ctx Demo.st0).1
  = Returned (Build_Success (Some "Successfully created chat!")
                (Some (Demo.chatResponse
                         (Demo.created {| c_addresses := JArr [JStr "+15551234567"];
                                          c_message := JUndefined;
                                          c_method := JUndefined;
                                          c_service := JUndefined;
                                          c_tempGuid := JUndefined |})))
                None).
Proof. reflexivity. Qed.

(** ** Finding a chat *)

(** C6.  For a request whose [with] parameter is a string or absent, [find]
    fails with [NotFound] exactly when the message store returns no chat for
    the guid.  When the store returns chats, [find] answers with the response
    of the first; when the last message is requested, it makes a second
    query, [getChatLastMessage] for the same guid, after the first, and the
    answer is the response of the chat with, as its [lastMessage], the
    response of the message that query returns and nothing else changed. *)
Theorem find_chat {World Exn} (Server : Services World Exn)
    (lib : Helpers Exn) (ctx : RouterContext) (st : St World)
    (withQuery : list string) :
  ChatRouter.find_withQuery lib ctx = Some withQuery →
  let params := by_guid (params_guid ctx) (includes withQuery "participants") in
  let withLastMessage := includes withQuery "lastmessage" in
  ((∃ message error,
      (ChatRouter.find Server lib ctx st).1 = Threw (NotFound message error))
   ↔ ∃ w, iMessageRepo_getChats Server params (world st) = (Returned [], w))
  ∧ ∀ chat rest w,
      iMessageRepo_getChats Server params (world st) = (Returned (chat :: rest), w) →
      (withLastMessage = false →
       ChatRouter.find Server lib ctx st
       = (Returned (Build_Success None (Some (getChatResponse lib chat)) None),
          {| world := w; calls := calls st ++ [GetChats params] |}))
      ∧ (withLastMessage = true →
         ∀ m w',
           iMessageRepo_getChatLastMessage Server (params_guid ctx) w = (Returned m, w') →
           ∃ data,
             ChatRouter.find Server lib ctx st
             = (Returned (Build_Success None (Some data) None),
                {| world := w';
                   calls := calls st ++ [GetChats params;
                                         GetChatLastMessage (params_guid ctx)] |})
             ∧ data = set_lastMessage (getMessageResponse lib m)
                                      (getChatResponse lib chat)
             ∧ lastMessage data = Some (getMessageResponse lib m)
             ∧ r_guid data = r_guid (getChatResponse lib chat)
             ∧ r_displayName data = r_displayName (getChatResponse lib chat)
             ∧ r_participants data = r_participants (getChatResponse lib chat)
             ∧ messages data = messages (getChatResponse lib chat)).
Proof.
  intros Hwith params withLastMessage.
  unfold ChatRouter.find. rewrite Hwith.
  fold params. fold withLastMessage.
  split.
  - destruct (iMessageRepo_getChats Server params (world st)) as [[chats|ex] w] eqn:Hget.
    + erewrite bind_returned by (apply call_returned; exact Hget).
      destruct chats as [|chat rest]; simpl.
      { split; eauto. }
      split; [|intros (w0 & Hw0); discriminate].
      intros (message & error & Hthrown). exfalso.
      destruct withLastMessage; [|discriminate].
      destruct (iMessageRepo_getChatLastMessage Server (params_guid ctx) w)
        as [[m|ex] w'] eqn:Hlast.
      * erewrite bind_returned in Hthrown; cycle 1.
        { erewrite bind_returned by (apply call_returned; exact Hlast). reflexivity. }
        discriminate.
      * erewrite bind_threw in Hthrown; cycle 1.
        { erewrite bind_threw by (apply call_threw; exact Hlast). reflexivity. }
        discriminate.
    + erewrite bind_threw by (apply call_threw; exact Hget). simpl.
      split; [intros (message & error & Hthrown)|intros (w0 & Hw0)]; discriminate.
  - intros chat rest w Hget.
    erewrite bind_returned by (apply call_returned; exact Hget). simpl.
    split.
    + intros ->. reflexivity.
    + intros -> m w' Hlast.
      exists (set_lastMessage (getMessageResponse lib m) (getChatResponse lib chat)).
      split; [|by repeat split].
      erewrite bind_returned; cycle 1.
      { erewrite bind_returned by (apply call_returned; exact Hlast). reflexivity. }
      simpl. rewrite <- app_assoc. reflexivity.
Qed.

Lemma find_chat_witness :
  let ctx := {| params_guid := "iMessage;+;chat1";
                query_with := JStr "participants,lastmessage";
                body := None |} in
  ∃ data,
    ChatRouter.find Demo.server Demo.lib ctx Demo.st0
    = (Returned (Build_Success None (Some data) None),
       {| world := Demo.mirror0;
          calls := [GetChats (by_guid "iMessage;+;chat1" true);
                    GetChatLastMessage "iMessage;+;chat1"] |})
    ∧ lastMessage data
      = Some {| r_msgGuid := "msg-1"; r_text := "hello"; r_dateCreated := 1000;
                tempGuid := JUndefined |}
    ∧ lastMessage (Demo.chatResponse Demo.team) = None
    ∧ r_guid data = "iMessage;+;chat1".
Proof.
  intros ctx.
  destruct (proj2 (proj2 (find_chat Demo.server Demo.lib ctx Demo.st0
                            ["participants"; "lastmessage"] eq_refl)
                     Demo.team [] Demo.mirror0 eq_refl) eq_refl
              Demo.hello Demo.mirror0 eq_refl)
    as (data & Hrun & _ & Hlast & Hguid & _).
  exists data. split; [exact Hrun|]. split; [exact Hlast|].
  split; [reflexivity|exact Hguid].
Defined.

(** ** Marking a chat read *)

(** C7.  [markRead] first submits the mark-read action for the guid and,
    once that call returns, whatever it returns, emits the event
    [chat-read-status-changed] with the payload [{chatGuid: guid, read:
    true}]: these are its only two calls, in this order, so no query of the
    mirror stands between the action and the event.  When the emitter
    returns, the handler answers with the acknowledgement. *)
Theorem markRead_emits_event {World Exn} (Server : Services World Exn)
    (ctx : RouterContext) (st : St World) (accepted : JsVal) (w : World) :
  privateApiHelper_markChatRead Server (params_guid ctx) (world st)
  = (Returned accepted, w) →
  let event := EmitMessage "chat-read-status-changed" (read_status (params_guid ctx)) in
  calls (ChatRouter.markRead Server ctx st).2
  = (calls st ++ [MarkChatRead (params_guid ctx); event])%list
  ∧ ∀ w',
      emitMessage Server "chat-read-status-changed" (read_status (params_guid ctx)) w
      = (Returned (), w') →
      ChatRouter.markRead Server ctx st
      = (Returned (Build_Success (Some "Successfully marked chat as read!") None None),
         {| world := w';
            calls := calls st ++ [MarkChatRead (params_guid ctx); event] |}).
Proof.
  intros Hmark event. unfold ChatRouter.markRead.
  erewrite bind_returned by (apply call_returned; exact Hmark).
  fold (read_status (params_guid ctx)). fold event.
  destruct (emitMessage Server "chat-read-status-changed"
              (read_status (params_guid ctx)) w) as [[[]|ex] w1] eqn:Hemit.
  - erewrite bind_returned by (apply call_returned; exact Hemit). simpl.
    rewrite <- app_assoc. split; [done|]. by intros w' [= <-].
  - erewrite bind_threw by (apply call_threw; exact Hemit). simpl.
    rewrite <- app_assoc. split; [done|]. intros w' [=].
Qed.

Lemma markRead_emits_event_witness :
  let ctx := Demo.request "iMessage;+;chat1" [] in
  ChatRouter.markRead Demo.server ctx Demo.st0
  = (Returned (Build_Success (Some "Successfully marked chat as read!") None None),
     {| world := Demo.mirror0;
        calls := [MarkChatRead "iMessage;+;chat1";
                  EmitMessage "chat-read-status-changed"
                    (JObj [("chatGuid", JStr "iMessage;+;chat1");
                           ("read", JBool true)])] |}).
Proof.
  intros ctx.
  exact (proj2 (markRead_emits_event Demo.server ctx Demo.st0 JUndefined
                  Demo.mirror0 eq_refl) Demo.mirror0 eq_refl).
Defined.

(** ** Querying chats *)

(** C9.  The total of a query: for a request with a body whose [with] is an
    array or absent, when [ChatInterface.get] returns the page and the count
    of the store returns, [query] answers with that page as data and, as
    [metadata.total], the number [getChatCount] returned.  That call takes
    no argument: neither the guid filter nor the offset or the limit reaches
    it.  (On the in-memory server a guid filter that matches one chat of
    three gives one item and a total of three.) *)
Theorem query_total_unfiltered {World Exn} (Server : Services World Exn)
    (lib : Helpers Exn) (ctx : RouterContext) (st : St World)
    (withQuery : list string) (results : list ChatResponse) (n : nat)
    (w w' : World) :
  ChatRouter.query_withQuery lib ctx = Some withQuery →
  is_Some (body ctx) →
  let offset := prop (body ctx) "offset" in
  let limit := prop (body ctx) "limit" in
  let opts :=
    {| g_guid := prop (body ctx) "guid";
       g_withParticipants := includes withQuery "participants";
       g_withLastMessage := includes withQuery "lastmessage";
       g_withArchived := includes withQuery "archived";
       g_offset := if truthy offset then parseInt10 lib offset else JNum (0 # 1);
       g_limit := if truthy limit then parseInt10 lib limit else JNum (1000 # 1);
       g_sort := prop (body ctx) "sort" |} in
  ChatInterface_get Server opts (world st) = (Returned results, w) →
  iMessageRepo_getChatCount Server w = (Returned n, w') →
  ChatRouter.query Server lib ctx st
  = (Returned (Build_Success None (Some results)
                 (Some {| md_total := n; md_offset := offset; md_limit := limit |})),
     {| world := w'; calls := calls st ++ [InterfaceGet opts; GetChatCount] |}).
Proof.
  intros Hwith [fields Hbody] offset limit opts Hget Hcount.
  unfold ChatRouter.query. rewrite Hwith.
  assert (∀ A (x y : A),
            match body ctx with None => x | Some _ => y end = y) as ->.
  { intros A x y. by rewrite Hbody. }
  erewrite bind_returned by (apply call_returned; exact Hget).
  erewrite bind_returned by (apply call_returned; exact Hcount).
  simpl. rewrite <- app_assoc. reflexivity.
Qed.

Lemma query_total_unfiltered_witness :
  let ctx := Demo.request "" [("guid", JStr "iMessage;+;chat1");
                              ("limit", JNum (1 # 1))] in
  ∃ results n st',
    ChatRouter.query Demo.server Demo.lib ctx Demo.st0
    = (Returned (Build_Success None (Some results)
                   (Some {| md_total := n; md_offset := JUndefined;
                            md_limit := JNum (1 # 1) |})), st')
    ∧ length results = 1 ∧ n = 3.
Proof.
  intros ctx.
  exists [Demo.chatResponse Demo.team], 3. eexists.
  split; [|done].
  apply (query_total_unfiltered Demo.server Demo.lib ctx Demo.st0 []
           [Demo.chatResponse Demo.team] 3 Demo.mirror0 Demo.mirror0);
    [reflexivity|by eexists|reflexivity|reflexivity].
Defined.

(** ** Removing the last participant *)

(** C3.  With the roster manager behind [ChatInterface.toggleParticipant],
    removing a participant from a chat whose roster has at most one
    participant (so that the removal would take the last one) is rejected
    with [InvalidOperation]; the mirror is as the lookup of the chat left it
    and nothing was submitted to the action executor. *)
Theorem remove_last_participant_rejected {Mirror}
    (base : Services Mirror RosterManager.ErrorKind)
    (executor_submit : RosterManager.RosterChange → Mirror → bool * Mirror)
    (lib : Helpers RosterManager.ErrorKind) (ctx : RouterContext)
    (st : St (RosterManager.ExecWorld Mirror))
    (chat : Chat) (rest : list Chat) (m : Mirror) :
  iMessageRepo_getChats base (by_guid (params_guid ctx) true)
    (RosterManager.mirror (world st))
  = (Returned (chat :: rest), m) →
  (length (participants chat) ≤ 1)%nat →
  let r := ChatRouter.removeParticipant
             (RosterManager.services base executor_submit) lib ctx st in
  r.1 = Threw (Raised RosterManager.InvalidOperation)
  ∧ RosterManager.mirror (world r.2) = m
  ∧ RosterManager.submitted (world r.2) = RosterManager.submitted (world st).
Proof.
  intros Hget Hlen r. subst r.
  unfold ChatRouter.removeParticipant, ChatRouter.toggleParticipant.
  erewrite bind_returned; cycle 1.
  { apply call_returned. simpl. unfold RosterManager.lift.
    unfold by_guid in Hget. rewrite Hget. reflexivity. }
  simpl.
  erewrite bind_threw; cycle 1.
  { apply call_threw. simpl. unfold RosterManager.toggle.
    destruct (Nat.leb_spec (length (participants chat)) 1) as [_|Hgt]; [|lia].
    reflexivity. }
  done.
Qed.

Lemma remove_last_participant_rejected_witness :
  let ctx := Demo.request "iMessage;-;+15551234567" [("address", JStr "+15551234567")] in
  let r := ChatRouter.removeParticipant Demo.managed Demo.managed_lib ctx Demo.managed_st0 in
  r.1 = Threw (Raised RosterManager.InvalidOperation)
  ∧ RosterManager.mirror (world r.2) = Demo.mirror0
  ∧ RosterManager.submitted (world r.2) = [].
Proof.
  intros ctx.
  apply (remove_last_participant_rejected
           (Demo.server_of (λ _, RosterManager.NotFoundKind)) (λ change m, (true, m))
           Demo.managed_lib ctx Demo.managed_st0 Demo.direct [] Demo.mirror0).
  - reflexivity.
  - simpl. lia.
Defined.

(** On a group the same request reaches the executor. *)
Example remove_from_group_submits :
  let ctx := Demo.request "iMessage;+;chat1" [("address", JStr "bob@example.com")] in
  RosterManager.submitted
    (world (ChatRouter.removeParticipant Demo.managed Demo.managed_lib ctx
              Demo.managed_st0).2)
  = [ {| RosterManager.rc_chatGuid := "iMessage;+;chat1";
         RosterManager.rc_address := JStr "bob@example.com";
         RosterManager.rc_op := remove |} ].
Proof. reflexivity. Qed.

(** * Further properties of the code *)

(** ** Splitting and joining *)

Lemma string_app_cons (x : ascii) (a b : string) :
  String x a ++ b = String x (a ++ b).
Proof. reflexivity. Qed.

Lemma string_app_nil_r (a : string) : a ++ "" = a.
Proof.
  induction a as [|x a IH]; [done|]. by rewrite string_app_cons, IH.
Qed.

Lemma string_app_assoc (a b c : string) : (a ++ b) ++ c = a ++ (b ++ c).
Proof.
  induction a as [|x a IH]; [done|].
  by rewrite !string_app_cons, IH.
Qed.

Lemma commas_app (a b : string) : commas (a ++ b) = (commas a + commas b)%nat.
Proof.
  induction a as [|x a IH]; [done|].
  rewrite string_app_cons. simpl. rewrite IH. lia.
Qed.

Lemma join_cons_cons (sep x y : string) (l : list string) :
  join sep (x :: y :: l) = x ++ sep ++ join sep (y :: l).
Proof. reflexivity. Qed.

Lemma split_comma_aux_cons (cur s : string) :
  ∃ piece pieces, split_comma_aux cur s = piece :: pieces.
Proof.
  revert cur. induction s as [|c s IH]; intros cur; simpl; [eauto|].
  destruct (Ascii.eqb c ","); eauto.
Qed.

Lemma split_comma_aux_join (cur s : string) :
  join "," (split_comma_aux cur s) = cur ++ s.
Proof.
  revert cur. induction s as [|c s IH]; intros cur; simpl.
  - by rewrite string_app_nil_r.
  - destruct (Ascii.eqb_spec c ",") as [->|Hne].
    + destruct (split_comma_aux_cons "" s) as (piece & pieces & Hs).
      rewrite Hs, join_cons_cons, <- Hs, IH. done.
    + rewrite IH. by rewrite string_app_assoc.
Qed.

Lemma split_comma_aux_pieces (cur s : string) :
  commas cur = 0 →
  length (split_comma_aux cur s) = S (commas s)
  ∧ Forall (λ piece, commas piece = 0) (split_comma_aux cur s).
Proof.
  revert cur. induction s as [|c s IH]; intros cur Hcur; simpl.
  - split; [done|]. by constructor.
  - destruct (Ascii.eqb_spec c ",") as [->|Hne]; simpl.
    + destruct (IH "" eq_refl) as [Hlen Hall]. split; [by rewrite Hlen|].
      by constructor.
    + apply IH. rewrite commas_app. simpl.
      destruct (Ascii.eqb_spec c ","); [done|lia].
Qed.

(** X1.  Splitting at the commas loses nothing: joining the pieces of
    [split(",")] with [","] gives the string back. *)
Theorem split_comma_join (s : string) : join "," (split_comma s) = s.
Proof. unfold split_comma. by rewrite split_comma_aux_join. Qed.

(** X2.  [split(",")] gives one piece more than the string has commas, so at
    least one, and no piece contains a comma. *)
Theorem split_comma_pieces (s : string) :
  length (split_comma s) = S (commas s)
  ∧ Forall (λ piece, commas piece = 0) (split_comma s).
Proof. unfold split_comma. by apply split_comma_aux_pieces. Qed.

(** ** The count summary *)

Lemma chats_of_service_perm (s : string) (chats chats' : list Chat) :
  chats ≡ₚ chats' → chats_of_service s chats = chats_of_service s chats'.
Proof. intros Hp. unfold chats_of_service. by rewrite Hp. Qed.

(** X3.  The summary does not depend on the order in which the store lists
    the chats: two lists that are permutations of one another give the same
    total and the same breakdown. *)
Theorem count_order_independent {World Exn} (Server Server' : Services World Exn)
    (ctx : RouterContext) (st st' : St World) (chats chats' : list Chat)
    (w w' : World) :
  iMessageRepo_getChats Server None (world st) = (Returned chats, w) →
  iMessageRepo_getChats Server' None (world st') = (Returned chats', w') →
  chats ≡ₚ chats' →
  (ChatRouter.count Server ctx st).1 = (ChatRouter.count Server' ctx st').1.
Proof.
  intros Hget Hget' Hperm. unfold ChatRouter.count.
  erewrite !bind_returned by (apply call_returned; eassumption). simpl.
  do 2 f_equal. f_equal. f_equal.
  - by rewrite Hperm.
  - apply map_eq. intros s. rewrite !foldl_count_chat_lookup.
    by rewrite (chats_of_service_perm s chats chats').
Qed.

Lemma count_order_independent_witness :
  (ChatRouter.count Demo.server (Demo.request "" []) Demo.st0).1
  = (ChatRouter.count Demo.server (Demo.request "" [])
       {| world := [Demo.texts; Demo.team; Demo.direct]; calls := [] |}).1.
Proof.
  apply (count_order_independent Demo.server Demo.server (Demo.request "" [])
           Demo.st0 {| world := [Demo.texts; Demo.team; Demo.direct]; calls := [] |}
           Demo.mirror0 [Demo.texts; Demo.team; Demo.direct]
           Demo.mirror0 [Demo.texts; Demo.team; Demo.direct]).
  - reflexivity.
  - reflexivity.
  - symmetry. apply (Permutation_cons_append [Demo.team; Demo.direct] Demo.texts).
Defined.

Lemma breakdown_size_le_sum (m : gmap string nat) :
  (∀ s n, m !! s = Some n → (1 ≤ n)%nat) →
  (size m ≤ breakdown_sum m)%nat.
Proof.
  unfold breakdown_sum.
  induction m as [|s n m Hs IH] using map_ind; intros Hpos.
  - by rewrite map_size_empty.
  - rewrite map_size_insert_None by done.
    rewrite map_fold_insert_L; [| intros; lia | done].
    pose proof (Hpos s n (lookup_insert_eq _ _ _)).
    assert (size m ≤ map_fold (λ _ n acc, n + acc) 0 m)%nat.
    { apply IH. intros s' n' Hs'. apply (Hpos s' n').
      rewrite lookup_insert_ne; [done|]. intros ->. congruence. }
    lia.
Qed.

(** X4.  In the summary every service of the breakdown counts at least one
    chat and at most [total] chats, and the breakdown has at most [total]
    services. *)
Theorem count_breakdown_bounds {World Exn} (Server : Services World Exn)
    (ctx : RouterContext) (st : St World) (chats : list Chat) (w : World) :
  iMessageRepo_getChats Server None (world st) = (Returned chats, w) →
  ∃ data,
    (ChatRouter.count Server ctx st).1
    = Returned (Build_Success None (Some data) None)
    ∧ (∀ s n, ChatRouter.breakdown data !! s = Some n →
              (1 ≤ n ≤ ChatRouter.total data)%nat)
    ∧ (size (ChatRouter.breakdown data) ≤ ChatRouter.total data)%nat.
Proof.
  intros Hget. eexists. split; [|split].
  - unfold ChatRouter.count.
    erewrite bind_returned by (apply call_returned; exact Hget). reflexivity.
  - simpl. intros s n. rewrite foldl_count_chat_lookup, lookup_empty.
    case_decide as Hs; [done|]. intros [= <-]. split; [lia|].
    unfold chats_of_service. apply length_filter.
  - simpl.
    etrans; [apply breakdown_size_le_sum|].
    + intros s n. rewrite foldl_count_chat_lookup, lookup_empty.
      case_decide as Hs; [done|]. intros [= <-]. lia.
    + pose proof (foldl_count_chat_sum chats ∅) as Hsum.
      unfold breakdown_sum in *. rewrite map_fold_empty in Hsum. lia.
Qed.

Lemma count_breakdown_bounds_witness :
  ∃ data,
    (ChatRouter.count Demo.server (Demo.request "" []) Demo.st0).1
    = Returned (Build_Success None (Some data) None)
    ∧ (∀ s n, ChatRouter.breakdown data !! s = Some n →
              (1 ≤ n ≤ ChatRouter.total data)%nat)
    ∧ (size (ChatRouter.breakdown data) ≤ ChatRouter.total data)%nat.
Proof.
  exact (count_breakdown_bounds Demo.server (Demo.request "" []) Demo.st0
           Demo.mirror0 Demo.mirror0 eq_refl).
Defined.

(** ** Handlers that only read *)

Section ReadsOnly.
Context {World Exn : Type}.

Lemma reads_only_ret {A} (a : A) : reads_only (@ret World Exn A a).
Proof. intros st. exists []. simpl. by rewrite app_nil_r. Qed.

Lemma reads_only_throw {A} (t : Thrown Exn) : reads_only (@throw World Exn A t).
Proof. intros st. exists []. simpl. by rewrite app_nil_r. Qed.

Lemma reads_only_bind {A B} (m : M World Exn A) (k : A → M World Exn B) :
  reads_only m → (∀ a, reads_only (k a)) → reads_only (bind m k).
Proof.
  intros Hm Hk st. unfold bind.
  destruct (Hm st) as (new & Hnew & Hall).
  destruct (m st) as [[a|t] st1]; simpl in *.
  - destruct (Hk a st1) as (new' & Hnew' & Hall').
    exists (new ++ new')%list. split.
    + by rewrite Hnew', Hnew, app_assoc.
    + by apply Forall_app.
  - by exists new.
Qed.

Lemma reads_only_call {R} (c : Call) (f : Ext World Exn R) :
  mutating_call c = false → reads_only (call c f).
Proof.
  intros Hc st. exists [c]. unfold call, bind, attempt.
  destruct (f (world st)) as [[r|ex] w]; simpl; by repeat constructor.
Qed.

End ReadsOnly.

(** X5.  The handlers [count], [find] and [query] only read: whatever the
    request, the state and the collaborators do, none of the calls they make
    is a mutation of [ChatInterface] or a call of the private API helper. *)
Theorem reading_handlers_read_only {World Exn} (Server : Services World Exn)
    (lib : Helpers Exn) (ctx : RouterContext) :
  reads_only (ChatRouter.count Server ctx)
  ∧ reads_only (ChatRouter.find Server lib ctx)
  ∧ reads_only (ChatRouter.query Server lib ctx).
Proof.
  split; [|split].
  - unfold ChatRouter.count.
    apply reads_only_bind; [by apply reads_only_call|].
    intros chats. apply reads_only_ret.
  - unfold ChatRouter.find.
    destruct (ChatRouter.find_withQuery lib ctx) as [withQuery|];
      [|apply reads_only_throw].
    apply reads_only_bind; [by apply reads_only_call|].
    intros chats. destruct (isEmpty chats); [apply reads_only_throw|].
    apply reads_only_bind; [|intros res; apply reads_only_ret].
    destruct (includes withQuery "lastmessage"); [|apply reads_only_ret].
    apply reads_only_bind; [by apply reads_only_call|].
    intros m. apply reads_only_ret.
  - unfold ChatRouter.query.
    destruct (ChatRouter.query_withQuery lib ctx) as [withQuery|];
      [|apply reads_only_throw].
    destruct (body ctx) as [fields|]; [|apply reads_only_throw].
    apply reads_only_bind; [by apply reads_only_call|].
    intros results.
    apply reads_only_bind; [by apply reads_only_call|].
    intros n. apply reads_only_ret.
Qed.

(** ** Failures of the handlers *)

(** X6.  A [with] query parameter that is an array (the parameter given more
    than once) makes [find] fail with a [TypeError] before it calls
    anything. *)
Theorem find_with_array {World Exn} (Server : Services World Exn)
    (lib : Helpers Exn) (ctx : RouterContext) (st : St World) (items : list JsVal) :
  query_with ctx = JArr items →
  ChatRouter.find Server lib ctx st = (Threw TypeError, st).
Proof.
  intros Hwith. unfold ChatRouter.find, ChatRouter.find_withQuery.
  by rewrite Hwith.
Qed.

Lemma find_with_array_witness :
  ChatRouter.find Demo.server Demo.lib
    {| params_guid := "iMessage;+;chat1";
       query_with := JArr [JStr "participants"; JStr "lastmessage"];
       body := None |} Demo.st0
  = (Threw TypeError, Demo.st0).
Proof.
  exact (find_with_array Demo.server Demo.lib
           {| params_guid := "iMessage;+;chat1";
              query_with := JArr [JStr "participants"; JStr "lastmessage"];
              body := None |} Demo.st0
           [JStr "participants"; JStr "lastmessage"] eq_refl).
Defined.

(** X7.  [find] answers all or nothing: when the chat exists and its last
    message is requested but the query of the last message throws, [find]
    throws that exception and gives no response for the chat. *)
Theorem find_last_message_failure {World Exn} (Server : Services World Exn)
    (lib : Helpers Exn) (ctx : RouterContext) (st : St World)
    (withQuery : list string) (chat : Chat) (rest : list Chat)
    (ex : Exn) (w w' : World) :
  ChatRouter.find_withQuery lib ctx = Some withQuery →
  includes withQuery "lastmessage" = true →
  let params := by_guid (params_guid ctx) (includes withQuery "participants") in
  iMessageRepo_getChats Server params (world st) = (Returned (chat :: rest), w) →
  iMessageRepo_getChatLastMessage Server (params_guid ctx) w = (Threw ex, w') →
  ChatRouter.find Server lib ctx st
  = (Threw (Raised ex),
     {| world := w';
        calls := calls st ++ [GetChats params; GetChatLastMessage (params_guid ctx)] |}).
Proof.
  intros Hwith Hlast params Hget Hmsg.
  unfold ChatRouter.find. rewrite Hwith, Hlast.
  erewrite bind_returned by (apply call_returned; exact Hget). simpl.
  erewrite bind_threw; cycle 1.
  { erewrite bind_threw by (apply call_threw; exact Hmsg). reflexivity. }
  simpl. by rewrite <- app_assoc.
Qed.

Lemma find_last_message_failure_witness :
  let ctx := {| params_guid := "SMS;-;+15551234567";
                query_with := JStr "lastmessage"; body := None |} in
  ChatRouter.find Demo.server Demo.lib ctx Demo.st0
  = (Threw (Raised "no message"),
     {| world := Demo.mirror0;
        calls := [GetChats (by_guid "SMS;-;+15551234567" false);
                  GetChatLastMessage "SMS;-;+15551234567"] |}).
Proof.
  intros ctx.
  exact (find_last_message_failure Demo.server Demo.lib ctx Demo.st0
           ["lastmessage"] Demo.texts [] "no message" Demo.mirror0 Demo.mirror0
           eq_refl eq_refl eq_refl eq_refl).
Defined.

(** X8.  A query without a body fails with a [TypeError] before it calls
    anything. *)
Theorem query_without_body {World Exn} (Server : Services World Exn)
    (lib : Helpers Exn) (ctx : RouterContext) (st : St World) :
  body ctx = None →
  ChatRouter.query Server lib ctx st = (Threw TypeError, st).
Proof.
  intros Hbody. unfold ChatRouter.query, ChatRouter.query_withQuery.
  by rewrite Hbody.
Qed.

Lemma query_without_body_witness :
  ChatRouter.query Demo.server Demo.lib
    {| params_guid := ""; query_with := JUndefined; body := None |} Demo.st0
  = (Threw TypeError, Demo.st0).
Proof.
  exact (query_without_body Demo.server Demo.lib
           {| params_guid := ""; query_with := JUndefined; body := None |}
           Demo.st0 eq_refl).
Defined.

(** X9.  The defaults of a query: when the body gives no offset and no limit
    (or falsy ones, such as [0]), [ChatInterface.get] is asked for offset [0]
    and limit [1000], but the metadata of the answer carry the offset and the
    limit of the body as they came, not the defaults. *)
Theorem query_defaults {World Exn} (Server : Services World Exn)
    (lib : Helpers Exn) (ctx : RouterContext) (st : St World)
    (withQuery : list string) (results : list ChatResponse) (n : nat)
    (w w' : World) :
  ChatRouter.query_withQuery lib ctx = Some withQuery →
  is_Some (body ctx) →
  truthy (prop (body ctx) "offset") = false →
  truthy (prop (body ctx) "limit") = false →
  let opts :=
    {| g_guid := prop (body ctx) "guid";
       g_withParticipants := includes withQuery "participants";
       g_withLastMessage := includes withQuery "lastmessage";
       g_withArchived := includes withQuery "archived";
       g_offset := JNum (0 # 1);
       g_limit := JNum (1000 # 1);
       g_sort := prop (body ctx) "sort" |} in
  ChatInterface_get Server opts (world st) = (Returned results, w) →
  iMessageRepo_getChatCount Server w = (Returned n, w') →
  ChatRouter.query Server lib ctx st
  = (Returned (Build_Success None (Some results)
                 (Some {| md_total := n;
                          md_offset := prop (body ctx) "offset";
                          md_limit := prop (body ctx) "limit" |})),
     {| world := w'; calls := calls st ++ [InterfaceGet opts; GetChatCount] |}).
Proof.
  intros Hwith [fields Hbody] Hoffset Hlimit opts Hget Hcount.
  unfold ChatRouter.query. rewrite Hwith, Hoffset, Hlimit.
  assert (∀ A (x y : A),
            match body ctx with None => x | Some _ => y end = y) as ->.
  { intros A x y. by rewrite Hbody. }
  erewrite bind_returned by (apply call_returned; exact Hget).
  erewrite bind_returned by (apply call_returned; exact Hcount).
  simpl. rewrite <- app_assoc. reflexivity.
Qed.

Lemma query_defaults_witness :
  ChatRouter.query Demo.server Demo.lib
    (Demo.request "" [("limit", JNum (0 # 1))]) Demo.st0
  = (Returned (Build_Success None
                 (Some (map Demo.chatResponse Demo.mirror0))
                 (Some {| md_total := 3; md_offset := JUndefined;
                          md_limit := JNum (0 # 1) |})),
     {| world := Demo.mirror0;
        calls := [InterfaceGet
                    {| g_guid := JUndefined;
                       g_withParticipants := false;
                       g_withLastMessage := false;
                       g_withArchived := false;
                       g_offset := JNum (0 # 1);
                       g_limit := JNum (1000 # 1);
                       g_sort := JUndefined |};
                  GetChatCount] |}).
Proof.
  exact (query_defaults Demo.server Demo.lib
           (Demo.request "" [("limit", JNum (0 # 1))]) Demo.st0 []
           (map Demo.chatResponse Demo.mirror0) 3 Demo.mirror0 Demo.mirror0
           eq_refl (ex_intro _ _ eq_refl) eq_refl eq_refl eq_refl eq_refl).
Defined.

(** X10.  [update] and [toggleParticipant] on a chat the store does not
    know: both fail with [NotFound] "Chat does not exist!" after the lookup,
    whatever the body asks for, and [ChatInterface] is not called. *)
Theorem mutation_of_unknown_chat {World Exn} (Server : Services World Exn)
    (lib : Helpers Exn) (ctx : RouterContext) (action : ToggleAction)
    (st : St World) (w : World) :
  iMessageRepo_getChats Server (by_guid (params_guid ctx) true) (world st)
  = (Returned [], w) →
  let failed : Outcome (Thrown Exn) (Success ChatResponse) * St World :=
    (Threw (NotFound None "Chat does not exist!"),
     {| world := w;
        calls := calls st ++ [GetChats (by_guid (params_guid ctx) true)] |}) in
  ChatRouter.update Server lib ctx st = failed
  ∧ ChatRouter.toggleParticipant Server lib ctx action st = failed.
Proof.
  intros Hget failed. split.
  - unfold ChatRouter.update.
    by erewrite bind_returned by (apply call_returned; exact Hget).
  - unfold ChatRouter.toggleParticipant.
    by erewrite bind_returned by (apply call_returned; exact Hget).
Qed.

Lemma mutation_of_unknown_chat_witness :
  let ctx := Demo.request "nobody" [("displayName", JStr "Team");
                                    ("address", JStr "bob@example.com")] in
  let failed : Outcome (Thrown string) (Success ChatResponse) * St (list Chat) :=
    (Threw (NotFound None "Chat does not exist!"),
     {| world := Demo.mirror0; calls := [GetChats (by_guid "nobody" true)] |}) in
  ChatRouter.update Demo.server Demo.lib ctx Demo.st0 = failed
  ∧ ChatRouter.toggleParticipant Demo.server Demo.lib ctx add Demo.st0 = failed.
Proof.
  intros ctx.
  exact (mutation_of_unknown_chat Demo.server Demo.lib ctx add Demo.st0
           Demo.mirror0 eq_refl).
Defined.

(** X11.  [toggleParticipant] on a chat the store knows: it hands the chat
    as looked up, the [address] of the body and the action to
    [ChatInterface.toggleParticipant], once.  When that call returns a chat,
    the answer is the response of the returned chat, not of the one looked
    up; when it throws, the exception goes through unchanged, unlike in
    [update]. *)
Theorem toggleParticipant_forwards {World Exn} (Server : Services World Exn)
    (lib : Helpers Exn) (ctx : RouterContext) (action : ToggleAction)
    (st : St World) (chat : Chat) (rest : list Chat) (w w' : World)
    (o : Outcome Exn Chat) :
  iMessageRepo_getChats Server (by_guid (params_guid ctx) true) (world st)
  = (Returned (chat :: rest), w) →
  ChatInterface_toggleParticipant Server chat (prop (body ctx) "address") action w
  = (o, w') →
  ChatRouter.toggleParticipant Server lib ctx action st
  = (match o with
     | Returned chat' =>
         Returned (Build_Success None (Some (getChatResponse lib chat')) None)
     | Threw ex => Threw (Raised ex)
     end,
     {| world := w';
        calls := calls st ++ [GetChats (by_guid (params_guid ctx) true);
                              InterfaceToggleParticipant chat
                                (prop (body ctx) "address") action] |}).
Proof.
  intros Hget Htoggle. unfold ChatRouter.toggleParticipant.
  erewrite bind_returned by (apply call_returned; exact Hget). simpl.
  destruct o as [chat'|ex].
  - erewrite bind_returned by (apply call_returned; exact Htoggle).
    simpl. by rewrite <- app_assoc.
  - erewrite bind_threw by (apply call_threw; exact Htoggle).
    simpl. by rewrite <- app_assoc.
Qed.

Lemma toggleParticipant_forwards_witness :
  let ctx := Demo.request "iMessage;+;chat1" [("address", JStr "carol@example.com")] in
  ChatRouter.addParticipant Demo.server Demo.lib ctx Demo.st0
  = (Returned (Build_Success None (Some (Demo.chatResponse Demo.team)) None),
     {| world := Demo.mirror0;
        calls := [GetChats (by_guid "iMessage;+;chat1" true);
                  InterfaceToggleParticipant Demo.team
                    (JStr "carol@example.com") add] |}).
Proof.
  intros ctx.
  exact (toggleParticipant_forwards Demo.server Demo.lib ctx add Demo.st0
           Demo.team [] Demo.mirror0 Demo.mirror0 (Returned Demo.team)
           eq_refl eq_refl).
Defined.

(** X12.  [create] when [ChatInterface.create] returns no chat: the handler
    fails with the error "Failed to create chat!", after that one call. *)
Theorem create_without_chat {World Exn} (Server : Services World Exn)
    (lib : Helpers Exn) (ctx : RouterContext) (st : St World) (w : World) :
  let opts := {| c_addresses := prop (body ctx) "addresses";
                 c_message := prop (body ctx) "message";
                 c_method := prop (body ctx) "method";
                 c_service := prop (body ctx) "service";
                 c_tempGuid := prop (body ctx) "tempGuid" |} in
  ChatInterface_create Server opts (world st) = (Returned None, w) →
  ChatRouter.create Server lib ctx st
  = (Threw (IMessageError None "Failed to create chat!"),
     {| world := w; calls := calls st ++ [InterfaceCreate opts] |}).
Proof.
  intros opts Hcreate. unfold ChatRouter.create.
  by erewrite bind_returned by (apply call_returned; exact Hcreate).
Qed.

Lemma create_without_chat_witness :
  let server :=
    {| iMessageRepo_getChats := iMessageRepo_getChats Demo.server;
       iMessageRepo_getChatLastMessage := iMessageRepo_getChatLastMessage Demo.server;
       iMessageRepo_getChatCount := iMessageRepo_getChatCount Demo.server;
       privateApiHelper_markChatRead := privateApiHelper_markChatRead Demo.server;
       emitMessage := emitMessage Demo.server;
       ChatInterface_get := ChatInterface_get Demo.server;
       ChatInterface_setDisplayName := ChatInterface_setDisplayName Demo.server;
       ChatInterface_create := λ opts w, (Returned None, w);
       ChatInterface_toggleParticipant := ChatInterface_toggleParticipant Demo.server |} in
  ChatRouter.create server Demo.lib (Demo.request "" []) Demo.st0
  = (Threw (IMessageError None "Failed to create chat!"),
     {| world := Demo.mirror0;
        calls := [InterfaceCreate {| c_addresses := JUndefined; c_message := JUndefined;
                                     c_method := JUndefined; c_service := JUndefined;
                                     c_tempGuid := JUndefined |}] |}).
Proof.
  intros server.
  exact (create_without_chat server Demo.lib (Demo.request "" []) Demo.st0
           Demo.mirror0 eq_refl).
Defined.

(** X13.  [markRead] when the mark-read action throws: the exception goes
    through, and the event [chat-read-status-changed] is not emitted. *)
Theorem markRead_failure_emits_nothing {World Exn} (Server : Services World Exn)
    (ctx : RouterContext) (st : St World) (ex : Exn) (w : World) :
  privateApiHelper_markChatRead Server (params_guid ctx) (world st) = (Threw ex, w) →
  ChatRouter.markRead Server ctx st
  = (Threw (Raised ex),
     {| world := w; calls := calls st ++ [MarkChatRead (params_guid ctx)] |}).
Proof.
  intros Hmark. unfold ChatRouter.markRead.
  by erewrite bind_threw by (apply call_threw; exact Hmark).
Qed.

Lemma markRead_failure_emits_nothing_witness :
  let server :=
    {| iMessageRepo_getChats := iMessageRepo_getChats Demo.server;
       iMessageRepo_getChatLastMessage := iMessageRepo_getChatLastMessage Demo.server;
       iMessageRepo_getChatCount := iMessageRepo_getChatCount Demo.server;
       privateApiHelper_markChatRead := λ g w, (Threw "private API is off", w);
       emitMessage := emitMessage Demo.server;
       ChatInterface_get := ChatInterface_get Demo.server;
       ChatInterface_setDisplayName := ChatInterface_setDisplayName Demo.server;
       ChatInterface_create := ChatInterface_create Demo.server;
       ChatInterface_toggleParticipant := ChatInterface_toggleParticipant Demo.server |} in
  ChatRouter.markRead server (Demo.request "iMessage;+;chat1" []) Demo.st0
  = (Threw (Raised "private API is off"),
     {| world := Demo.mirror0; calls := [MarkChatRead "iMessage;+;chat1"] |}).
Proof.
  intros server.
  exact (markRead_failure_emits_nothing server (Demo.request "iMessage;+;chat1" [])
           Demo.st0 "private API is off" Demo.mirror0 eq_refl).
Defined.

(** ** Messages, icon and deletion *)

Section RestFacts.
Context {World Exn : Type}.
Implicit Types (st : St (RestWorld World)) (c : RestCall).

Lemma on_inner_outcome {R} (f : Ext World Exn R) (rw : RestWorld World) o w :
  f (inner rw) = (o, w) →
  ChatRouterRest.on_inner f rw = (o, {| inner := w; rest_calls := rest_calls rw |}).
Proof. intros Hf. unfold ChatRouterRest.on_inner. by rewrite Hf. Qed.

Lemma call_rest_returned {R} c (f : Ext World Exn R) st r w :
  f (inner (world st)) = (Returned r, w) →
  ChatRouterRest.call_rest c f st
  = (Returned r,
     {| world := {| inner := w; rest_calls := rest_calls (world st) ++ [c] |};
        calls := calls st |}).
Proof. intros Hf. unfold ChatRouterRest.call_rest. by rewrite Hf. Qed.

Lemma call_rest_threw {R} c (f : Ext World Exn R) st ex w :
  f (inner (world st)) = (Threw ex, w) →
  ChatRouterRest.call_rest c f st
  = (Threw (Raised ex),
     {| world := {| inner := w; rest_calls := rest_calls (world st) ++ [c] |};
        calls := calls st |}).
Proof. intros Hf. unfold ChatRouterRest.call_rest. by rewrite Hf. Qed.

End RestFacts.

(** X14.  [getMessages] and [getGroupIcon] on a chat the store does not
    know: both fail with [NotFound] "Chat does not exist!" after the lookup
    (made without participants); neither the messages nor the icon path are
    asked for. *)
Theorem messages_and_icon_of_unknown_chat {World Exn} (Server : Services World Exn)
    (Rest : RestServices World Exn) (lib : Helpers Exn) (ctx : RouterContext)
    (query : list (string * JsVal)) (withQuery : list string)
    (st : St (RestWorld World)) (w : World) :
  ChatRouter.find_withQuery lib ctx = Some withQuery →
  iMessageRepo_getChats Server (by_guid (params_guid ctx) false) (inner (world st))
  = (Returned [], w) →
  let st' := {| world := {| inner := w; rest_calls := rest_calls (world st) |};
                calls := calls st ++ [GetChats (by_guid (params_guid ctx) false)] |} in
  ChatRouterRest.getMessages Server Rest lib ctx query st
  = (Threw (NotFound None "Chat does not exist!"), st')
  ∧ ChatRouterRest.getGroupIcon Server Rest ctx st
    = (Threw (NotFound None "Chat does not exist!"), st').
Proof.
  intros Hwith Hget st'. split.
  - unfold ChatRouterRest.getMessages. rewrite Hwith.
    erewrite bind_returned; cycle 1.
    { apply call_returned. apply on_inner_outcome. exact Hget. }
    reflexivity.
  - unfold ChatRouterRest.getGroupIcon.
    erewrite bind_returned; cycle 1.
    { apply call_returned. apply on_inner_outcome. exact Hget. }
    reflexivity.
Qed.

Lemma messages_and_icon_of_unknown_chat_witness :
  let ctx := Demo.request "nobody" [] in
  let st' := {| world := {| inner := Demo.mirror0; rest_calls := [] |};
                calls := [GetChats (by_guid "nobody" false)] |} in
  ChatRouterRest.getMessages Demo.server DemoRest.services Demo.lib ctx [] DemoRest.st0
  = (Threw (NotFound None "Chat does not exist!"), st')
  ∧ ChatRouterRest.getGroupIcon Demo.server DemoRest.services ctx DemoRest.st0
    = (Threw (NotFound None "Chat does not exist!"), st').
Proof.
  intros ctx.
  exact (messages_and_icon_of_unknown_chat Demo.server DemoRest.services Demo.lib
           ctx [] [""] DemoRest.st0 Demo.mirror0 eq_refl eq_refl).
Defined.

(** X15.  The page of [getMessages]: when the chat exists, the handler asks
    the store once, with the parameters it built from the request, and when
    that call returns messages the answer holds the response of each
    message, as many as the store returned and in the same order; when the
    call returns null, the answer is the empty list, not an error. *)
Theorem getMessages_page {World Exn} (Server : Services World Exn)
    (Rest : RestServices World Exn) (lib : Helpers Exn) (ctx : RouterContext)
    (query : list (string * JsVal)) (withQuery : list string)
    (st : St (RestWorld World)) (chat : Chat) (rest : list Chat)
    (w w' : World) (messages : option (list Message)) :
  ChatRouter.find_withQuery lib ctx = Some withQuery →
  iMessageRepo_getChats Server (by_guid (params_guid ctx) false) (inner (world st))
  = (Returned (chat :: rest), w) →
  let opts :=
    {| mp_chatGuid := params_guid ctx;
       mp_withAttachments :=
         includes withQuery "attachment" || includes withQuery "attachments";
       mp_withHandle := includes withQuery "handle" || includes withQuery "handles";
       mp_offset := if truthy (assoc "offset" query)
                    then parseInt10 lib (assoc "offset" query) else JNum (0 # 1);
       mp_limit := if truthy (assoc "limit" query)
                   then parseInt10 lib (assoc "limit" query) else JNum (100 # 1);
       mp_sort := assoc "sort" query;
       mp_before := if truthy (assoc "before" query)
                    then parseInt10 lib (assoc "before" query) else JNull;
       mp_after := if truthy (assoc "after" query)
                   then parseInt10 lib (assoc "after" query) else JNull |} in
  iMessageRepo_getMessages Rest opts w = (Returned messages, w') →
  ∃ results,
    ChatRouterRest.getMessages Server Rest lib ctx query st
    = (Returned (Build_Success None (Some results) None),
       {| world := {| inner := w';
                      rest_calls := rest_calls (world st) ++ [GetMessages opts] |};
          calls := calls st ++ [GetChats (by_guid (params_guid ctx) false)] |})
    ∧ results = map (getMessageResponse lib) (default [] messages)
    ∧ length results = length (default [] messages)
    ∧ (messages = None → results = []).
Proof.
  intros Hwith Hget opts Hmsgs. eexists. split; [|split; [|split]].
  - unfold ChatRouterRest.getMessages. rewrite Hwith.
    erewrite bind_returned; cycle 1.
    { apply call_returned. apply on_inner_outcome. exact Hget. }
    simpl.
    erewrite bind_returned; cycle 1.
    { apply call_rest_returned. simpl. exact Hmsgs. }
    reflexivity.
  - reflexivity.
  - by rewrite length_map.
  - by intros ->.
Qed.

Lemma getMessages_page_witness :
  ∃ results,
    ChatRouterRest.getMessages Demo.server DemoRest.paged Demo.lib
      (Demo.request "iMessage;+;chat2" []) [("limit", JNum (2 # 1))] DemoRest.paged_st0
    = (Returned (Build_Success None (Some results) None),
       {| world := {| inner := [DemoRest.busy];
                      rest_calls :=
                        [GetMessages
                           {| mp_chatGuid := "iMessage;+;chat2";
                              mp_withAttachments := false; mp_withHandle := false;
                              mp_offset := JNum (0 # 1); mp_limit := JNum (2 # 1);
                              mp_sort := JUndefined;
                              mp_before := JNull; mp_after := JNull |}] |};
          calls := [GetChats (by_guid "iMessage;+;chat2" false)] |})
    ∧ results = map Demo.messageResponse [DemoRest.first; DemoRest.second]
    ∧ length results = 2
    ∧ (Some [DemoRest.first; DemoRest.second] = None → results = []).
Proof.
  apply (getMessages_page Demo.server DemoRest.paged Demo.lib
           (Demo.request "iMessage;+;chat2" []) [("limit", JNum (2 # 1))] [""]
           DemoRest.paged_st0 DemoRest.busy [] [DemoRest.busy] [DemoRest.busy]
           (Some [DemoRest.first; DemoRest.second]));
    reflexivity.
Defined.

(** X16.  The defaults of [getMessages]: without [offset], [limit], [before]
    and [after] in the query (or with falsy ones), the store is asked for
    offset [0], limit [100] and no bounds ([null]), for the guid of the
    request, and [parseInt] is not applied. *)
Theorem getMessages_defaults {World Exn} (Server : Services World Exn)
    (Rest : RestServices World Exn) (lib : Helpers Exn) (ctx : RouterContext)
    (query : list (string * JsVal)) (withQuery : list string)
    (st : St (RestWorld World)) (chat : Chat) (rest : list Chat) (w : World) :
  ChatRouter.find_withQuery lib ctx = Some withQuery →
  iMessageRepo_getChats Server (by_guid (params_guid ctx) false) (inner (world st))
  = (Returned (chat :: rest), w) →
  truthy (assoc "offset" query) = false →
  truthy (assoc "limit" query) = false →
  truthy (assoc "before" query) = false →
  truthy (assoc "after" query) = false →
  rest_calls (world (ChatRouterRest.getMessages Server Rest lib ctx query st).2)
  = (rest_calls (world st)
     ++ [GetMessages
           {| mp_chatGuid := params_guid ctx;
              mp_withAttachments :=
                includes withQuery "attachment" || includes withQuery "attachments";
              mp_withHandle := includes withQuery "handle" || includes withQuery "handles";
              mp_offset := JNum (0 # 1);
              mp_limit := JNum (100 # 1);
              mp_sort := assoc "sort" query;
              mp_before := JNull;
              mp_after := JNull |}])%list.
Proof.
  intros Hwith Hget Hoffset Hlimit Hbefore Hafter.
  unfold ChatRouterRest.getMessages. rewrite Hwith.
  erewrite bind_returned; cycle 1.
  { apply call_returned. apply on_inner_outcome. exact Hget. }
  simpl. rewrite Hoffset, Hlimit, Hbefore, Hafter.
  unfold bind, ChatRouterRest.call_rest. simpl.
  destruct (iMessageRepo_getMessages Rest _ w) as [[msgs|ex] w']; reflexivity.
Qed.

Lemma getMessages_defaults_witness :
  rest_calls (world (ChatRouterRest.getMessages Demo.server DemoRest.services Demo.lib
                       (Demo.request "iMessage;+;chat1" [])
                       [("sort", JStr "DESC"); ("limit", JStr "")] DemoRest.st0).2)
  = [GetMessages
       {| mp_chatGuid := "iMessage;+;chat1";
          mp_withAttachments := false; mp_withHandle := false;
          mp_offset := JNum (0 # 1); mp_limit := JNum (100 # 1);
          mp_sort := JStr "DESC"; mp_before := JNull; mp_after := JNull |}].
Proof.
  exact (getMessages_defaults Demo.server DemoRest.services Demo.lib
           (Demo.request "iMessage;+;chat1" [])
           [("sort", JStr "DESC"); ("limit", JStr "")] [""] DemoRest.st0
           Demo.team [] Demo.mirror0 eq_refl eq_refl eq_refl eq_refl eq_refl eq_refl).
Defined.

(** X17.  The icon of a group: when the chat exists, the icon path is asked
    for the guid of the chat that the store returned.  Without a path (none,
    or the empty string) the handler fails with [NotFound] "Unable to find
    icon for the selected chat"; with one, it streams the real path of that
    file as [image/jfif]. *)
Theorem getGroupIcon_stream {World Exn} (Server : Services World Exn)
    (Rest : RestServices World Exn) (ctx : RouterContext)
    (st : St (RestWorld World)) (chat : Chat) (rest : list Chat)
    (w w' : World) (iconPath : option string) :
  iMessageRepo_getChats Server (by_guid (params_guid ctx) false) (inner (world st))
  = (Returned (chat :: rest), w) →
  iMessageRepo_getGroupIconPath Rest (guid chat) w = (Returned iconPath, w') →
  ChatRouterRest.getGroupIcon Server Rest ctx st
  = (match iconPath with
     | None | Some "" =>
         Threw (NotFound (Some "The requested resource was not found")
                         "Unable to find icon for the selected chat")
     | Some path =>
         Returned {| fs_path := FileSystem_getRealPath Rest path;
                     fs_mimeType := "image/jfif" |}
     end,
     {| world := {| inner := w';
                    rest_calls := rest_calls (world st)
                                  ++ [GetGroupIconPath (guid chat)] |};
        calls := calls st ++ [GetChats (by_guid (params_guid ctx) false)] |}).
Proof.
  intros Hget Hicon. unfold ChatRouterRest.getGroupIcon.
  erewrite bind_returned; cycle 1.
  { apply call_returned. apply on_inner_outcome. exact Hget. }
  simpl.
  erewrite bind_returned; cycle 1.
  { apply call_rest_returned. exact Hicon. }
  by destruct iconPath as [[|c path]|].
Qed.

Lemma getGroupIcon_stream_witness :
  ChatRouterRest.getGroupIcon Demo.server DemoRest.services
    (Demo.request "iMessage;+;chat1" []) DemoRest.st0
  = (Returned {| fs_path := "/Users/me~/Library/Messages/icon.jfif";
                 fs_mimeType := "image/jfif" |},
     {| world := {| inner := Demo.mirror0;
                    rest_calls := [GetGroupIconPath "iMessage;+;chat1"] |};
        calls := [GetChats (by_guid "iMessage;+;chat1" false)] |}).
Proof.
  exact (getGroupIcon_stream Demo.server DemoRest.services
           (Demo.request "iMessage;+;chat1" []) DemoRest.st0
           Demo.team [] Demo.mirror0 Demo.mirror0
           (Some "~/Library/Messages/icon.jfif") eq_refl eq_refl).
Defined.

(** X18.  [deleteChat] does not look the chat up: its only call is
    [ChatInterface.delete] with the guid of the request, whether or not the
    store knows that chat.  When the call returns, the answer is the
    acknowledgement; when it throws, the exception goes through. *)
Theorem deleteChat_without_lookup {World Exn} (Rest : RestServices World Exn)
    (ctx : RouterContext) (st : St (RestWorld World))
    (o : Outcome Exn unit) (w : World) :
  ChatInterface_delete Rest (params_guid ctx) (inner (world st)) = (o, w) →
  ChatRouterRest.deleteChat Rest ctx st
  = (match o with
     | Returned _ =>
         Returned (Build_Success (Some "Successfully deleted chat!") None None)
     | Threw ex => Threw (Raised ex)
     end,
     {| world := {| inner := w;
                    rest_calls := rest_calls (world st)
                                  ++ [InterfaceDelete (params_guid ctx)] |};
        calls := calls st |}).
Proof.
  intros Hdel. unfold ChatRouterRest.deleteChat.
  destruct o as [[]|ex].
  - by erewrite bind_returned by (apply call_rest_returned; exact Hdel).
  - by erewrite bind_threw by (apply call_rest_threw; exact Hdel).
Qed.

Lemma deleteChat_without_lookup_witness :
  ChatRouterRest.deleteChat DemoRest.services (Demo.request "nobody" []) DemoRest.st0
  = (Returned (Build_Success (Some "Successfully deleted chat!") None None),
     {| world := {| inner := Demo.mirror0; rest_calls := [InterfaceDelete "nobody"] |};
        calls := [] |}).
Proof.
  exact (deleteChat_without_lookup DemoRest.services (Demo.request "nobody" [])
           DemoRest.st0 (Returned ()) Demo.mirror0 eq_refl).
Defined.

(** ** The drop zone of the notifications walkthrough *)

Section WalkthroughFacts.
Context {World Exn Blob Json : Type}.
Variable fcm : NotificationsWalkthrough.Fcm World Exn Blob Json.
Import NotificationsWalkthrough.

Local Ltac settle_calls :=
  repeat first [apply Forall_nil | apply Forall_cons; split | split];
  simpl; eauto 10.

Lemma read_one_calls (file : Blob) (w : FcmWorld World Blob Json) :
  ∃ tail,
    fcm_calls (read_one fcm file w).2 = (fcm_calls w ++ ReadFile file :: tail)%list
    ∧ omap read_of tail = []
    ∧ Forall (validated fcm) tail
    ∧ dispatches_follow_saves (Some (ReadFile file)) tail.
Proof.
  unfold read_one, try_bind, step, compute, fail.
  destruct (readFile fcm file (fcm_world w)) as [[str|ex] w1] eqn:Hread; simpl;
    [|by exists []].
  destruct (isValidClientConfig fcm str) as [validClient|ex] eqn:Hclient; simpl;
    [|by exists []].
  destruct (isValidServerConfig fcm str) as [validServer|ex] eqn:Hserver; simpl;
    [|by exists []].
  destruct (JSON_parse fcm str) as [jsonData|ex] eqn:Hparse; simpl;
    [|by exists []].
  destruct validClient.
  - destruct (isValidFirebaseUrl fcm jsonData) as [[]|ex] eqn:Hurl; simpl;
      [|by exists []|by exists []].
    destruct (saveFcmClient fcm jsonData w1) as [[[]|ex] w2]; simpl.
    + destruct (dispatch_setConfig fcm "fcm_client" jsonData w2) as [[[]|ex] w3];
        simpl; rewrite <- !app_assoc; simpl;
        (eexists; split; [reflexivity|split; [reflexivity|]]);
        settle_calls.
    + rewrite <- !app_assoc; simpl.
      eexists; split; [reflexivity|split; [reflexivity|]];
        settle_calls.
  - destruct validServer; simpl; [|by exists []].
    destruct (saveFcmServer fcm jsonData w1) as [[[]|ex] w2]; simpl.
    + destruct (dispatch_setConfig fcm "fcm_server" jsonData w2) as [[[]|ex] w3];
        simpl; rewrite <- !app_assoc; simpl;
        (eexists; split; [reflexivity|split; [reflexivity|]]);
        settle_calls.
    + rewrite <- !app_assoc; simpl.
      eexists; split; [reflexivity|split; [reflexivity|]];
        settle_calls.
Qed.

Lemma dispatches_follow_saves_app (prev : option (FcmCall Blob Json))
    (log log' : list (FcmCall Blob Json)) :
  dispatches_follow_saves prev log →
  (∀ p, dispatches_follow_saves p log') →
  dispatches_follow_saves prev (log ++ log').
Proof.
  revert prev. induction log as [|c log IH]; intros prev Hlog Hlog'; simpl.
  - apply Hlog'.
  - destruct Hlog as [Hc Hlog]. split; [done|]. by apply IH.
Qed.

Lemma read_files_calls (i : nat) (files : list Blob) (errs : list ErrorItem)
    (w : FcmWorld World Blob Json) :
  ∃ new,
    fcm_calls (read_files fcm i files errs w).2 = (fcm_calls w ++ new)%list
    ∧ omap read_of new = files
    ∧ Forall (validated fcm) new
    ∧ ∀ p, dispatches_follow_saves p new.
Proof.
  revert i errs w. induction files as [|file files IH]; intros i errs w; simpl.
  - exists []. by rewrite app_nil_r.
  - destruct (read_one_calls file w) as (tail & Hcalls & Hreads & Hvalid & Hdisp).
    destruct (read_one fcm file w) as [r w1]; simpl in *.
    destruct (IH (S i) (match r with
                        | Returned _ => errs
                        | Threw msg =>
                            (errs ++ [{| id := pretty i; message := msg |}])%list
                        end) w1) as (new & Hnew & Hfiles & Hall & Hdisp').
    exists (ReadFile file :: tail ++ new)%list. split; [|split; [|split]].
    + rewrite Hnew, Hcalls, <- app_assoc. reflexivity.
    + simpl. rewrite omap_app, Hreads, Hfiles. reflexivity.
    + constructor; [done|]. by apply Forall_app.
    + intros p. simpl. split; [done|]. by apply dispatches_follow_saves_app.
Qed.

Lemma read_files_errors (i : nat) (files : list Blob) (errs : list ErrorItem)
    (w : FcmWorld World Blob Json) :
  ∃ new idxs,
    (read_files fcm i files errs w).1 = (errs ++ new)%list
    ∧ id <$> new = pretty <$> idxs
    ∧ StronglySorted lt idxs
    ∧ Forall (λ k, (i ≤ k < i + length files)%nat) idxs.
Proof.
  revert i errs w. induction files as [|file files IH]; intros i errs w; simpl.
  - exists [], []. rewrite app_nil_r. repeat split; constructor.
  - destruct (read_one fcm file w) as [r w1].
    destruct r as [[]|msg].
    + destruct (IH (S i) errs w1) as (new & idxs & Herrs & Hids & Hsorted & Hbound).
      exists new, idxs. repeat split; try done.
      eapply Forall_impl; [exact Hbound|]. simpl. intros k ?. lia.
    + destruct (IH (S i) (errs ++ [{| id := pretty i; message := msg |}])%list w1)
        as (new & idxs & Herrs & Hids & Hsorted & Hbound).
      exists ({| id := pretty i; message := msg |} :: new), (i :: idxs).
      split; [|split; [|split]].
      * rewrite Herrs, <- app_assoc. reflexivity.
      * by rewrite !fmap_cons, Hids.
      * constructor; [done|].
        eapply Forall_impl; [exact Hbound|]. simpl. intros k ?. lia.
      * constructor; [lia|].
        eapply Forall_impl; [exact Hbound|]. simpl. intros k ?. lia.
Qed.

Lemma onDrop_resets_drag (files : list Blob) (s : State) (w : FcmWorld World Blob Json) :
  dragCounter (onDrop fcm files s w).1 = 0%Z
  ∧ isDragging (onDrop fcm files s w).1 = false.
Proof.
  unfold onDrop. destruct (read_files fcm 0 files [] w) as [errs w'].
  by destruct (0 <? length errs)%nat.
Qed.

(** X19.  The flag of the drop zones follows the counter: from the state in
    which the page is first shown, after any sequence of drag-enter,
    drag-over, drag-leave, drop and close events, whatever the dropped files
    are and the file utilities do, [isDragging] is on exactly when
    [dragCounter] is positive.  (A drop resets both before it first awaits,
    so the events are taken one after the other.) *)
Theorem drag_flag_follows_counter (events : list (Event Blob))
    (w : FcmWorld World Blob Json) :
  let s := (run fcm events (initial, w)).1 in
  isDragging s = bool_decide (0 < dragCounter s)%Z.
Proof.
  simpl. unfold run.
  assert (∀ sw : State * FcmWorld World Blob Json,
            isDragging sw.1 = bool_decide (0 < dragCounter sw.1)%Z →
            isDragging (foldl (handle fcm) sw events).1
            = bool_decide (0 < dragCounter (foldl (handle fcm) sw events).1)%Z)
    as Hinv.
  { induction events as [|e events IH]; intros sw Hsw; simpl; [done|].
    apply IH. destruct sw as [s w0]. simpl in Hsw.
    destruct e; simpl.
    - unfold onDragEnter.
      destruct (Z.eqb_spec (dragCounter s) 0) as [Hz|Hnz]; simpl.
      + rewrite Hz. done.
      + rewrite Hsw. apply bool_decide_ext. lia.
    - done.
    - unfold onDragLeave. simpl.
      destruct (Z.eqb_spec (dragCounter s - 1) 0) as [Hz|Hnz]; simpl.
      + rewrite Hz. done.
      + rewrite Hsw. apply bool_decide_ext. lia.
    - destruct (onDrop_resets_drag files s w0) as [-> ->]. done.
    - done. }
  by apply Hinv.
Qed.

(** X20.  [onDrop] reads every dropped file once, in the order of the drop:
    a file that cannot be read or is refused does not stop the reading of
    the files after it. *)
Theorem onDrop_reads_every_file (files : list Blob) (s : State)
    (w : FcmWorld World Blob Json) :
  ∃ new,
    fcm_calls (onDrop fcm files s w).2 = (fcm_calls w ++ new)%list
    ∧ omap read_of new = files.
Proof.
  destruct (read_files_calls 0 files [] w) as (new & Hnew & Hfiles & _ & _).
  exists new. split; [|done].
  unfold onDrop. destruct (read_files fcm 0 files [] w) as [errs w'].
  simpl in Hnew. by destruct (0 <? length errs)%nat.
Qed.

(** X21.  [onDrop] saves only what the validators allow.  A client
    configuration is saved only for a content that the client check accepts
    and whose database check passes; a server configuration only for a
    content that the client check refuses and the server check accepts (so a
    content valid as both is saved as a client configuration); a content on
    which a check or the parser throws is not saved at all. *)
Theorem onDrop_saves_validated (files : list Blob) (s : State)
    (w : FcmWorld World Blob Json) :
  ∃ new,
    fcm_calls (onDrop fcm files s w).2 = (fcm_calls w ++ new)%list
    ∧ Forall (validated fcm) new.
Proof.
  destruct (read_files_calls 0 files [] w) as (new & Hnew & _ & Hvalid & _).
  exists new. split; [|done].
  unfold onDrop. destruct (read_files fcm 0 files [] w) as [errs w'].
  simpl in Hnew. by destruct (0 <? length errs)%nat.
Qed.

(** X22.  [onDrop] tells the store of the page about a configuration only
    directly after the call that saves that same configuration: a dispatch
    of [fcm_client] follows the save of the client configuration, a dispatch
    of [fcm_server] the save of the server configuration. *)
Theorem onDrop_dispatches_after_save (files : list Blob) (s : State)
    (w : FcmWorld World Blob Json) :
  ∃ new,
    fcm_calls (onDrop fcm files s w).2 = (fcm_calls w ++ new)%list
    ∧ dispatches_follow_saves None new.
Proof.
  destruct (read_files_calls 0 files [] w) as (new & Hnew & _ & _ & Hdisp).
  exists new. split; [|done].
  unfold onDrop. destruct (read_files fcm 0 files [] w) as [errs w'].
  simpl in Hnew. by destruct (0 <? length errs)%nat.
Qed.

(** X23.  The errors of a drop: either the drop leaves the errors of the
    page as they were, or it replaces them by a non-empty list whose ids are
    the decimal indices of dropped files, in increasing order and without
    repetition: at most one error per file. *)
Theorem onDrop_error_ids (files : list Blob) (s : State)
    (w : FcmWorld World Blob Json) :
  let s' := (onDrop fcm files s w).1 in
  errors s' = errors s
  ∨ ∃ idxs,
      idxs ≠ []
      ∧ id <$> errors s' = pretty <$> idxs
      ∧ StronglySorted lt idxs
      ∧ Forall (λ k, (k < length files)%nat) idxs.
Proof.
  simpl. unfold onDrop.
  destruct (read_files_errors 0 files [] w) as (new & idxs & Herrs & Hids & Hsorted & Hbound).
  destruct (read_files fcm 0 files [] w) as [errs w']. simpl in Herrs. subst errs.
  destruct new as [|e new]; simpl; [by left|]. right.
  exists idxs. split; [|split; [|split]]; try done.
  - intros ->. done.
  - eapply Forall_impl; [exact Hbound|]. simpl. intros k ?. lia.
Qed.

(** X24.  A drop without failure does not clear the alert: when the reading
    of the files records no error, [onDrop] keeps the errors that the page
    shows from before; it only resets the drag counter and the flag. *)
Theorem onDrop_keeps_old_errors (files : list Blob) (s : State)
    (w : FcmWorld World Blob Json) :
  (read_files fcm 0 files [] w).1 = [] →
  (onDrop fcm files s w).1
  = {| dragCounter := 0; isDragging := false; errors := errors s |}.
Proof.
  intros Hnone. unfold onDrop.
  destruct (read_files fcm 0 files [] w) as [errs w']. simpl in Hnone.
  by subst errs.
Qed.

End WalkthroughFacts.

Lemma onDrop_keeps_old_errors_witness :
  let s := {| NotificationsWalkthrough.dragCounter := 2;
              NotificationsWalkthrough.isDragging := true;
              NotificationsWalkthrough.errors :=
                [{| NotificationsWalkthrough.id := "0";
                    NotificationsWalkthrough.message := "Invalid Google FCM File!" |}] |} in
  (NotificationsWalkthrough.onDrop DemoRest.fcm ["c+"; "server"] s DemoRest.fcm_w0).1
  = {| NotificationsWalkthrough.dragCounter := 0;
       NotificationsWalkthrough.isDragging := false;
       NotificationsWalkthrough.errors :=
         [{| NotificationsWalkthrough.id := "0";
             NotificationsWalkthrough.message := "Invalid Google FCM File!" |}] |}.
Proof.
  intros s.
  exact (onDrop_keeps_old_errors DemoRest.fcm ["c+"; "server"] s DemoRest.fcm_w0
           eq_refl).
Defined.

Example onDrop_demo :
  let r := NotificationsWalkthrough.onDrop DemoRest.fcm
             ["c+"; "c-"; "junk"; ""; "server"]
             NotificationsWalkthrough.initial DemoRest.fcm_w0 in
  NotificationsWalkthrough.errors r.1
  = [ {| NotificationsWalkthrough.id := "1";
         NotificationsWalkthrough.message :=
           "Your Firebase setup does not have a real-time database enabled. Please enable the real-time database in your Firebase Console." |};
      {| NotificationsWalkthrough.id := "2";
         NotificationsWalkthrough.message := "Invalid Google FCM File!" |};
      {| NotificationsWalkthrough.id := "3";
         NotificationsWalkthrough.message := "unreadable" |} ]
  ∧ NotificationsWalkthrough.fcm_world r.2 = ["c+"; "server"].
Proof. vm_compute. done. Qed.
